(** * movie.py: the movie recommender

    A shallow embedding of [recommend] (src/movie.py, lines 80-110) and of the
    Python and pandas operations it calls, followed by the properties of the
    ranking, the result shaping and the error handling; then of the rest of
    the module: [load_data], [compute_similarity], [initialize_app] and the
    two routes.

    Conventions.
    - A Python [str] is a [string]; every [ascii] stands for one code point
      in the range 0..255, so [len] and slicing count characters.
    - A similarity score is a finite IEEE double, embedded in [Q] by its exact
      value: comparing two finite doubles is comparing their values.  The
      matrix handed to [recommend] is an input here; how scikit-learn fills
      it is not part of this development.
    - The data frame is the one [load_data] produces: rows are numbered
      0..N-1 ([reset_index(drop=True)]) and no [title] or [overview] cell is
      missing ([dropna]); [poster_url] may be missing (NaN).  The cells that
      are present are strings, as in the record of the data model: a column
      that [pd.read_csv] types as numbers (every title a number) is outside
      this model. *)

From Stdlib Require Import List String Ascii Bool Arith Lia.
From Stdlib Require Import QArith Qround Sorted Permutation.
Import ListNotations.

Local Close Scope Q_scope.
Local Open Scope string_scope.
Local Open Scope list_scope.
Local Open Scope nat_scope.

(** ** The Python side: outcomes, strings, lists *)

Module Py.

(** The exceptions (all of class [Exception]) that the modelled operations
    raise: positional indexing out of range, in numpy and in pandas. *)
Inductive exn : Type :=
| IndexError.

(** A call either returns a value or propagates an exception. *)
Inductive outcome (A : Type) : Type :=
| Returned (v : A)
| Raised (e : exn).
Arguments Returned {A} v.
Arguments Raised {A} e.

Definition bind {A B : Type} (c : outcome A) (k : A -> outcome B) : outcome B :=
  match c with
  | Returned v => k v
  | Raised e => Raised e
  end.

(** [str.lower] on one code point below 256: A-Z, and the Latin-1 capitals
    U+00C0..U+00DE except the multiplication sign U+00D7, move up by 32. *)
Definition lower_char (c : ascii) : ascii :=
  let n := nat_of_ascii c in
  if ((65 <=? n) && (n <=? 90))
     || ((192 <=? n) && (n <=? 222) && negb (n =? 215))
  then ascii_of_nat (n + 32)
  else c.

Fixpoint lower (s : string) : string :=
  match s with
  | EmptyString => EmptyString
  | String c s' => String (lower_char c) (lower s')
  end.

(** [s[:n]] *)
Definition slice_to (n : nat) (s : string) : string := substring 0 n s.

(** [enumerate(l)], counting from [start]. *)
Fixpoint enumerate_from {A : Type} (start : nat) (l : list A) : list (nat * A) :=
  match l with
  | [] => []
  | x :: xs => (start, x) :: enumerate_from (S start) xs
  end.

Definition enumerate {A : Type} (l : list A) : list (nat * A) :=
  enumerate_from 0 l.

(** [l[i]] for [0 <= i]: out of range raises [IndexError]
    (numpy's [a[i]] on the first axis and pandas' [df.iloc[i]] alike). *)
Definition getitem {A : Type} (l : list A) (i : nat) : outcome A :=
  match nth_error l i with
  | Some x => Returned x
  | None => Raised IndexError
  end.

(** [l[a:b]] for [0 <= a <= b]: never raises, clips at the end of [l]. *)
Definition slice {A : Type} (a b : nat) (l : list A) : list A :=
  firstn (b - a) (skipn a l).

(** [sorted(l, key=key, reverse=True)] for a key in [Q].  The built-in is a
    stable sort, and [reverse=True] keeps stability: elements with equal
    keys stay in their original order.  The stable descending insertion
    sort below is the function that contract determines: an element is put
    in front of the first element of the sorted tail whose key is not
    larger than its own. *)
Section Sorted.
Context {A : Type} (key : A -> Q).

Fixpoint insert_reverse (x : A) (l : list A) : list A :=
  match l with
  | [] => [x]
  | y :: ys =>
      if Qle_bool (key y) (key x) then x :: y :: ys
      else y :: insert_reverse x ys
  end.

Definition sorted_reverse (l : list A) : list A :=
  fold_right insert_reverse [] l.
End Sorted.

(** [round(x, 3)], taken on the exact value: the nearest multiple of
    1/1000, ties to the even one.  The code rounds a [numpy.float64] in
    double arithmetic, which can differ from this in the last decimal for a
    score next to a tie; no property below speaks of the rounded value. *)
Definition round3 (x : Q) : Q :=
  let y := (x * 1000)%Q in
  let f := Qfloor y in
  let r := (y - inject_Z f)%Q in
  let n := match (r ?= 1 # 2)%Q with
           | Lt => f
           | Gt => (f + 1)%Z
           | Eq => if Z.even f then f else (f + 1)%Z
           end in
  Qred (inject_Z n / 1000)%Q.

End Py.

Import Py.

Notation "x <- c ;; k" := (Py.bind c (fun x => k))
  (at level 61, c at next level, right associativity).

(** ** Data model *)

(** One row of [movies_df] after [load_data], with string cells (see the
    conventions): [poster_url] is [None] when the cell is missing (NaN), so
    that [pd.notna] is [true] exactly on [Some]. *)
Record Movie : Type := mkMovie {
  title : string;
  overview : string;
  poster_url : option string
}.

Definition DataFrame : Type := list Movie.

(** [similarity_matrix]: a list of rows of scores. *)
Definition Matrix : Type := list (list Q).

(** One dictionary of the list [recommend] returns. *)
Record Recommendation : Type := mkRecommendation {
  rec_title : string;
  rec_overview : string;
  rec_poster_url : string;
  similarity_score : Q
}.

(** What [recommend] writes to the logger:
    [logger.warning(f"Movie '{movie_title}' not found")] and
    [logger.error(f"Error generating recommendations: {str(e)}")]. *)
Inductive LogRecord : Type :=
| Warning_not_found (movie_title : string)
| Error_generating (e : exn).

Definition placeholder : string :=
  "https://via.placeholder.com/200x300?text=No+Image".

(** ** recommend *)

(** Line 84: [df[df['title'].str.lower() == movie_title.lower()]], the rows
    whose lowered title equals the lowered query, each with its index label. *)
Definition movie_matches (movie_title : string) (df : DataFrame) : list (nat * Movie) :=
  filter (fun im => String.eqb (lower (title (snd im))) (lower movie_title))
         (enumerate df).

(** Lines 93-94: the row of scores, enumerated, sorted by descending score,
    sliced [1:6]. *)
Definition sorted_distances (row : list Q) : list (nat * Q) :=
  slice 1 6 (sorted_reverse (fun x => snd x) (enumerate row)).

(** Lines 99-104: the dictionary appended for one ranked position.
    [pd.notna(movie_data['poster_url'])] holds exactly when the cell is
    [Some url], whatever the string [url] is. *)
Definition shape (movie_data : Movie) (score : Q) : Recommendation :=
  {| rec_title := title movie_data;
     rec_overview :=
       if 150 <? String.length (overview movie_data)
       then (slice_to 150 (overview movie_data) ++ "...")%string
       else overview movie_data;
     rec_poster_url :=
       match poster_url movie_data with
       | Some url => url
       | None => placeholder
       end;
     similarity_score := round3 score |}.

(** Lines 96-104: the loop over [sorted_distances], appending to
    [recommendations]; [df.iloc[i]] may raise. *)
Fixpoint for_loop (df : DataFrame) (distances : list (nat * Q))
         (recommendations : list Recommendation) : outcome (list Recommendation) :=
  match distances with
  | [] => Returned recommendations
  | (i, score) :: rest =>
      movie_data <- getitem df i ;;
      for_loop df rest (recommendations ++ [shape movie_data score])
  end.

(** The body of the [try] block (lines 83-106), with what it logs. *)
Definition recommend_try (movie_title : string) (df : DataFrame)
           (similarity_matrix : Matrix)
  : outcome (list Recommendation) * list LogRecord :=
  match movie_matches movie_title df with
  | [] => (Returned [], [Warning_not_found movie_title])
  | (index, _) :: _ =>
      (row <- getitem similarity_matrix index ;;
       for_loop df (sorted_distances row) [],
       [])
  end.

(** [recommend]: the [try] block, and [except Exception] (lines 108-110),
    which logs the error and returns the empty list. *)
Definition recommend (movie_title : string) (df : DataFrame)
           (similarity_matrix : Matrix)
  : outcome (list Recommendation) * list LogRecord :=
  match recommend_try movie_title df similarity_matrix with
  | (Returned recommendations, log) => (Returned recommendations, log)
  | (Raised e, log) => (Returned [], log ++ [Error_generating e])
  end.

(** ** Vocabulary of the properties *)

(** [m] is matched by the query: equal titles once both are lowered. *)
Definition matches (movie_title : string) (m : Movie) : Prop :=
  lower (title m) = lower movie_title.

(** The order of the ranking on (position, unrounded score) pairs: a larger
    score first, and among equal scores the smaller position first. *)
Definition ranks_before (a b : nat * Q) : Prop :=
  (snd b < snd a)%Q \/ ((snd a == snd b)%Q /\ fst a < fst b).

(** The matrix of an index built on [df]: one row per record, one column per
    record. *)
Definition square_on (df : DataFrame) (similarity_matrix : Matrix) : Prop :=
  List.length similarity_matrix = List.length df /\
  Forall (fun row => List.length row = List.length df) similarity_matrix.

(** [r] is the dictionary shaped from the record at position [fst p] with the
    unrounded score [snd p]. *)
Definition shaped_from (df : DataFrame) (p : nat * Q) (r : Recommendation) : Prop :=
  exists m, nth_error df (fst p) = Some m /\ r = shape m (snd p).

(** The value of the local variable [sorted_distances] in a run of
    [recommend]: empty when the run does not reach line 94. *)
Definition ranking (movie_title : string) (df : DataFrame)
           (similarity_matrix : Matrix) : list (nat * Q) :=
  match movie_matches movie_title df with
  | [] => []
  | (index, _) :: _ =>
      match nth_error similarity_matrix index with
      | Some row => sorted_distances row
      | None => []
      end
  end.



(** ** Sample corpora *)

Module Samples.

Definition space : string := "a shared plot about space travel".
Definition cooking : string := "completely unrelated text about cooking".

(** Two records with the same overview.  Identical overviews give identical
    term vectors, so every entry of the matrix is the same score. *)
Definition alpha : Movie := mkMovie "Alpha" space None.
Definition beta : Movie := mkMovie "Beta" space (Some "b.png").
Definition twins : DataFrame := [alpha; beta].
Definition twins_matrix : Matrix := [[1; 1]; [1; 1]]%Q.

(** Three records, the second one with an overview made of stop-words
    only: its term vector is zero and so is its whole row, diagonal
    included. *)
Definition gamma : Movie := mkMovie "Gamma" "the and of" None.
Definition delta : Movie := mkMovie "Delta" cooking (Some "d.png").
Definition stopword : DataFrame := [alpha; gamma; delta].
Definition stopword_matrix : Matrix := [[1; 0; 0]; [0; 0; 0]; [0; 0; 1]]%Q.

(** The scenario of three records A, B, C: A and B share their overview. *)
Definition rec_a : Movie := mkMovie "A" space (Some "a.png").
Definition rec_b : Movie := mkMovie "B" space None.
Definition rec_c : Movie := mkMovie "C" cooking (Some "c.png").
Definition abc : DataFrame := [rec_a; rec_b; rec_c].
Definition abc_matrix : Matrix := [[1; 1; 0]; [1; 1; 0]; [0; 0; 1]]%Q.

(** A record whose overview has 160 characters, and one with exactly 150. *)
Definition digits : string := "0123456789".
Definition overview160 : string := String.concat "" (repeat digits 16).
Definition overview150 : string := String.concat "" (repeat digits 15).
Definition long_movie : Movie := mkMovie "Long" overview160 None.
Definition exact_movie : Movie := mkMovie "Exact" overview150 None.
Definition lengths : DataFrame := [alpha; long_movie; exact_movie].
Definition lengths_matrix : Matrix :=
  [[1; 1 # 2; 1 # 4]; [1 # 2; 1; 0]; [1 # 4; 0; 1]]%Q.

(** Four records of which the second and the third share their title up to
    letter case; their rows of the matrix rank the others differently. *)
Definition dup_first : Movie :=
  mkMovie "Heat" "a crew plans a heist before space travel" (Some "h1.png").
Definition dup_second : Movie :=
  mkMovie "HEAT" "a cook plans a heist while cooking" (Some "h2.png").
Definition ronin : Movie := mkMovie "Ronin" cooking None.
Definition remakes : DataFrame := [alpha; dup_first; dup_second; ronin].
Definition remakes_matrix : Matrix :=
  [[1; 0.9; 0; 0.1]; [0.9; 1; 0.2; 0.3]; [0; 0.2; 1; 0.8]; [0.1; 0.3; 0.8; 1]]%Q.

(** One record. *)
Definition single : DataFrame := [alpha].
Definition single_matrix : Matrix := [[1]]%Q.

(** A matrix with fewer rows than the frame has records. *)
Definition short_matrix : Matrix := [[1; 1]]%Q.

(** Four records; the first row has a tie between positions 1 and 3. *)
Definition four : DataFrame :=
  map (fun t => mkMovie t space None) ["M0"; "M1"; "M2"; "M3"].
Definition four_matrix : Matrix :=
  [[1; 0.5; 0.7; 0.5]; [0.5; 1; 0.2; 0.1]; [0.7; 0.2; 1; 0.3]; [0.5; 0.1; 0.3; 1]]%Q.

End Samples.

(** ** The rest of movie.py: loading, initialisation and the two routes *)

(** *** More of the Python side *)

Module Web.

(** [c.isspace()] for a code point below 256, the test [str.strip] uses:
    tab to carriage return, the four separators U+001C..U+001F, space,
    U+0085 and U+00A0. *)
Definition isspace (c : ascii) : bool :=
  let n := nat_of_ascii c in
  ((9 <=? n) && (n <=? 13)) || ((28 <=? n) && (n <=? 32))
  || (n =? 133) || (n =? 160).

Fixpoint lstrip (s : string) : string :=
  match s with
  | EmptyString => EmptyString
  | String c s' => if isspace c then lstrip s' else s
  end.

Fixpoint rstrip (s : string) : string :=
  match s with
  | EmptyString => EmptyString
  | String c s' =>
      match rstrip s' with
      | EmptyString => if isspace c then EmptyString else String c EmptyString
      | r => String c r
      end
  end.

(** [s.strip()] *)
Definition strip (s : string) : string := rstrip (lstrip s).

(** [sorted(l)] on strings: ascending by code points; the built-in is
    stable, so an element goes in front of the first element of the sorted
    tail that is not smaller. *)
Fixpoint insert_ascending (x : string) (l : list string) : list string :=
  match l with
  | [] => [x]
  | y :: ys => if String.leb x y then x :: y :: ys else y :: insert_ascending x ys
  end.

Definition sorted_ascending (l : list string) : list string :=
  fold_right insert_ascending [] l.

#[local] Set Warnings "-register-all".

(** What [request.get_json()] returns: [None], a bool, a number, a string,
    a list or a dict.  Of a number the route can only observe whether it is
    zero, so that is all a [JNum] records.  A dict keeps its members in the
    order of the document; a later member overrides an earlier one with the
    same key. *)
Inductive json : Type :=
| JNull
| JBool (b : bool)
| JNum (nonzero : bool)
| JStr (s : string)
| JArr (items : list json)
| JObj (members : list (string * json)).

(** The exceptions of the route's [try] block: the two [request.get_json()]
    raises on a body it refuses, the three of the operations on [data], and
    whatever [recommend] would propagate. *)
Inductive exn : Type :=
| BadRequest
| UnsupportedMediaType
| TypeError
| KeyError
| AttributeError
| Propagated (e : Py.exn).

Inductive attempt (A : Type) : Type :=
| Done (v : A)
| Threw (e : exn).
Arguments Done {A} v.
Arguments Threw {A} e.

Definition and_then {A B : Type} (c : attempt A) (k : A -> attempt B) : attempt B :=
  match c with
  | Done v => k v
  | Threw e => Threw e
  end.

(** The truth value of [data], as [not data] tests it. *)
Definition truthy (data : json) : bool :=
  match data with
  | JNull => false
  | JBool b => b
  | JNum nonzero => nonzero
  | JStr s => negb (String.eqb s "")
  | JArr items => match items with [] => false | _ :: _ => true end
  | JObj members => match members with [] => false | _ :: _ => true end
  end.

(** [key in data]: a key of a dict, an element of a list, a substring of a
    string; [None], a bool and a number are not iterable. *)
Definition contains (key : string) (data : json) : attempt bool :=
  match data with
  | JObj members => Done (existsb (fun kv => String.eqb (fst kv) key) members)
  | JArr items =>
      Done (existsb (fun v => match v with
                              | JStr s => String.eqb s key
                              | _ => false
                              end) items)
  | JStr s => Done (match String.index 0 key s with Some _ => true | None => false end)
  | JNull | JBool _ | JNum _ => Threw TypeError
  end.

Fixpoint lookup_last (key : string) (members : list (string * json)) : option json :=
  match members with
  | [] => None
  | (k, v) :: rest =>
      match lookup_last key rest with
      | Some v' => Some v'
      | None => if String.eqb k key then Some v else None
      end
  end.

(** [data[key]] for a string [key]: only a dict can be subscripted by it. *)
Definition subscript (key : string) (data : json) : attempt json :=
  match data with
  | JObj members =>
      match lookup_last key members with
      | Some v => Done v
      | None => Threw KeyError
      end
  | _ => Threw TypeError
  end.

(** [v.strip()]: only a string has the method. *)
Definition strip_method (v : json) : attempt string :=
  match v with
  | JStr s => Done (strip s)
  | _ => Threw AttributeError
  end.

(** The double quote character, for the messages that quote a name. *)
Definition dquote : string := String (ascii_of_nat 34) EmptyString.

End Web.

(** *** load_data (lines 20-58) *)

(** One row of the frame [pd.read_csv] returns, reduced to the cells of the
    three columns the program reads; [None] is a missing cell (NaN).  The
    cells are read only once the three columns are known to exist.  As in
    [Movie], cells that are present are strings; the header is taken not to
    hold the names [title], [overview] and [poster_url] that the renaming of
    lines 38-42 introduces.  The rows [pd.read_csv] builds from a file are
    those of [read_csv] below; they never hold a present empty string. *)
Record CsvRow : Type := mkCsvRow {
  Title : option string;
  Overview : option string;
  Poster_Url : option string
}.

Record CsvFrame : Type := mkCsvFrame {
  columns : list string;
  csv_rows : list CsvRow
}.

(** One line of the file: the text of its three fields (the empty text for
    a field that is empty or absent). *)
Record CsvLine : Type := mkCsvLine {
  Title_field : string;
  Overview_field : string;
  Poster_Url_field : string
}.

(** [pd.read_csv] with its default NA handling (line 27 passes no option):
    a field whose text is one of [na_values] is read as NaN, any other text
    is the cell.  The set depends on the version of pandas; in every version
    it holds the empty text. *)
Definition read_cell (na_values : list string) (field : string) : option string :=
  if existsb (String.eqb field) na_values then None else Some field.

Definition read_line (na_values : list string) (line : CsvLine) : CsvRow :=
  mkCsvRow (read_cell na_values (Title_field line))
           (read_cell na_values (Overview_field line))
           (read_cell na_values (Poster_Url_field line)).

Definition read_csv (na_values : list string) (header : list string)
           (lines : list CsvLine) : CsvFrame :=
  mkCsvFrame header (map (read_line na_values) lines).

(** The default set that pandas 2 documents. *)
Definition default_na_values : list string :=
  [""; "#N/A"; "#N/A N/A"; "#NA"; "-1.#IND"; "-1.#QNAN"; "-NaN"; "-nan";
   "1.#IND"; "1.#QNAN"; "<NA>"; "N/A"; "NA"; "NULL"; "NaN"; "None"; "n/a";
   "nan"; "null"].

(** What [load_data] finds under the name [dataset.csv]: nothing; a file on
    which [pd.read_csv] raises ([str_e] is [str(e)]); a file it parses. *)
Inductive Disk : Type :=
| No_file
| Unreadable (str_e : string)
| Readable (csv : CsvFrame).

(** What [load_data], [compute_similarity] and [initialize_app] log. *)
Inductive AppLog : Type :=
| Error_dataset_not_found
| Error_missing_columns (missing_columns : list string)
| Error_no_valid_movies
| Info_loaded (final_count removed : nat)
| Error_loading (str_e : string)
| Info_similarity_computed
| Error_computing (str_e : string)
| Info_initializing
| Info_initialized
| Error_failed_to_initialize.

Definition required_columns : list string := ["Title"; "Overview"; "Poster_Url"].

(** Lines 38-46: the renaming and [dropna(subset=['title', 'overview'])]
    followed by [reset_index(drop=True)]: the rows with both cells present,
    in order, renumbered from 0 by their place in the list. *)
Definition dropna (rows : list CsvRow) : DataFrame :=
  flat_map (fun r =>
              match Title r, Overview r with
              | Some t, Some o => [mkMovie t o (Poster_Url r)]
              | _, _ => []
              end) rows.

Definition load_data (disk : Disk) : option DataFrame * list AppLog :=
  match disk with
  | No_file => (None, [Error_dataset_not_found])
  | Unreadable str_e => (None, [Error_loading str_e])
  | Readable df =>
      let missing_columns :=
        filter (fun col => negb (existsb (String.eqb col) (columns df)))
               required_columns in
      match missing_columns with
      | _ :: _ => (None, [Error_missing_columns missing_columns])
      | [] =>
          let initial_count := List.length (csv_rows df) in
          let df' := dropna (csv_rows df) in
          let final_count := List.length df' in
          if final_count =? 0 then (None, [Error_no_valid_movies])
          else (Some df', [Info_loaded final_count (initial_count - final_count)])
      end
  end.

(** *** Module state, compute_similarity (lines 61-77), initialize_app
    (lines 113-130) *)

(** The globals [movies_df] and [similarity_matrix], and the one entry that
    [lru_cache(maxsize=1)] keeps for [compute_similarity]: the last argument
    and the value returned for it. *)
Record State : Type := mkState {
  movies_df : option DataFrame;
  similarity_matrix : option Matrix;
  cache : option (Z * option Matrix)
}.

(** The state of a fresh process (lines 16-17). *)
Definition fresh : State := mkState None None None.

Section Libraries.

(** [cosine_similarity(TfidfVectorizer(stop_words='english',
    max_features=5000).fit_transform(overviews))], scikit-learn's part: the
    matrix, or [str(e)] of the exception it raises (an empty vocabulary
    raises [ValueError]). *)
Variable tfidf_cosine : list string -> Matrix + string.

(** The body of [compute_similarity]; it does not read its argument. *)
Definition compute_similarity_body (st : State) : option Matrix * list AppLog :=
  match movies_df st with
  | None => (None, [])
  | Some df =>
      match tfidf_cosine (map overview df) with
      | inl matrix => (Some matrix, [Info_similarity_computed])
      | inr str_e => (None, [Error_computing str_e])
      end
  end.

(** [compute_similarity(df_hash)] under [lru_cache(maxsize=1)]: a call with
    the cached argument returns the cached value and runs nothing; any other
    call runs the body and replaces the entry. *)
Definition compute_similarity (df_hash : Z) (st : State)
  : option Matrix * State * list AppLog :=
  let miss :=
    let (value, log) := compute_similarity_body st in
    (value,
     mkState (movies_df st) (similarity_matrix st) (Some (df_hash, value)),
     log) in
  match cache st with
  | Some (key, value) => if Z.eqb key df_hash then (value, st, []) else miss
  | None => miss
  end.

(** [initialize_app()].  [df_hash] is the value that
    [hash(str(movies_df.values.tobytes()))] takes in this run (line 122): the
    bytes of an object array are the addresses of its cells, not their
    content, so the frame does not determine the value and it is an input of
    the run. *)
Definition initialize_app (df_hash : Z) (disk : Disk) (st : State)
  : bool * State * list AppLog :=
  let (loaded, log1) := load_data disk in
  let st1 := mkState loaded (similarity_matrix st) (cache st) in
  match loaded with
  | Some df =>
      let '(matrix, st2, log2) := compute_similarity df_hash st1 in
      let st3 := mkState (movies_df st2) matrix (cache st2) in
      match matrix with
      | Some _ =>
          (true, st3, [Info_initializing] ++ log1 ++ log2 ++ [Info_initialized])
      | None =>
          (false, st3,
           [Info_initializing] ++ log1 ++ log2 ++ [Error_failed_to_initialize])
      end
  | None =>
      (false, st1, [Info_initializing] ++ log1 ++ [Error_failed_to_initialize])
  end.

End Libraries.

(** *** The routes (lines 585-634) and the template's three blocks *)

Module Routes.

Import Web.

(** What the template shows (lines 455-498): the error block when [error]
    is a non-empty string, else the "No Movies Available" block when
    [movies] is [None] or empty, else the form with one option per movie. *)
Inductive Page : Type :=
| Error_block (error : string)
| No_data_block
| Form_block (movies : list string).

Definition render_template (movies : option (list string)) (error : option string)
  : Page :=
  match error with
  | Some (String c e) => Error_block (String c e)
  | _ =>
      match movies with
      | Some (m :: ms) => Form_block (m :: ms)
      | _ => No_data_block
      end
  end.

(** [index()] (lines 586-601) *)
Definition index (st : State) : Page :=
  match movies_df st with
  | None =>
      render_template None
        (Some "Failed to load movie data. Please check if dataset.csv exists and is properly formatted.")
  | Some df =>
      match df with
      | [] => render_template None (Some "No valid movies found in the dataset.")
      | _ :: _ =>
          let movies_list := sorted_ascending (map title df) in
          render_template (Some movies_list) None
      end
  end.

(** A response of [/recommend]: the JSON object and the status code. *)
Inductive Payload : Type :=
| Error_message (error : string)
| Recommendations (recommendations : list Recommendation).

Record Response : Type := mkResponse {
  payload : Payload;
  status : nat
}.

(** What [request.get_json()] does: returns the parsed body ([JNull] also
    for Flask's [None]) or raises. *)
Inductive Body : Type :=
| Parsed (data : json)
| Refused (e : exn).

(** What the route and the [recommend] it calls log. *)
Inductive WebLog : Type :=
| By_recommend (r : LogRecord)
| Error_in_endpoint (e : exn).

(** The [try] block of [get_recommendations] (lines 609-630). *)
Definition get_recommendations_try (body : Body) (st : State)
  : attempt Response * list WebLog :=
  match body with
  | Refused e => (Threw e, [])
  | Parsed data =>
      let missing :=
        if negb (truthy data) then Done true
        else and_then (contains "movie" data) (fun found => Done (negb found)) in
      match missing with
      | Threw e => (Threw e, [])
      | Done true => (Done (mkResponse (Error_message "Movie name is required") 400), [])
      | Done false =>
          match and_then (subscript "movie" data) strip_method with
          | Threw e => (Threw e, [])
          | Done movie_name =>
              if String.eqb movie_name "" then
                (Done (mkResponse (Error_message "Movie name cannot be empty") 400), [])
              else
                match movies_df st with
                | None =>
                    (Done (mkResponse (Error_message "Movie database not available") 500), [])
                | Some df =>
                    match similarity_matrix st with
                    | None =>
                        (Done (mkResponse
                                 (Error_message "Recommendation system not ready") 500), [])
                    | Some matrix =>
                        let (outcome, log) := recommend movie_name df matrix in
                        match outcome with
                        | Raised e => (Threw (Propagated e), map By_recommend log)
                        | Returned [] =>
                            (Done (mkResponse
                                     (Error_message
                                        ("No recommendations found for " ++ dquote
                                           ++ movie_name ++ dquote)%string) 404),
                             map By_recommend log)
                        | Returned recommendations =>
                            (Done (mkResponse (Recommendations recommendations) 200),
                             map By_recommend log)
                        end
                    end
                end
          end
      end
  end.

(** [get_recommendations()]: the [try] block, and [except Exception] (lines
    632-634), which logs and answers 500. *)
Definition get_recommendations (body : Body) (st : State) : Response * list WebLog :=
  match get_recommendations_try body st with
  | (Done response, log) => (response, log)
  | (Threw e, log) =>
      (mkResponse (Error_message "Internal server error occurred") 500,
       log ++ [Error_in_endpoint e])
  end.

End Routes.

(** *** Vocabulary of the properties of loading *)

(** A row that [dropna] keeps: title and overview present. *)
Definition complete (r : CsvRow) : bool :=
  match Title r, Overview r with
  | Some _, Some _ => true
  | _, _ => false
  end.

(** A record of the loaded frame, read back as a row of the file. *)
Definition row_of (m : Movie) : CsvRow :=
  mkCsvRow (Some (title m)) (Some (overview m)) (poster_url m).

(** *** Vocabulary of the properties of the routes *)

(** What [/recommend] answers once the request names a movie and both
    globals are set, read off the result [res] of [recommend] on the
    stripped name. *)
Definition answer (movie_name : string)
           (res : outcome (list Recommendation) * list LogRecord)
  : Routes.Response * list Routes.WebLog :=
  match fst res with
  | Raised e =>
      (Routes.mkResponse (Routes.Error_message "Internal server error occurred") 500,
       map Routes.By_recommend (snd res)
           ++ [Routes.Error_in_endpoint (Web.Propagated e)])
  | Returned [] =>
      (Routes.mkResponse
         (Routes.Error_message
            ("No recommendations found for " ++ Web.dquote
               ++ movie_name ++ Web.dquote)%string)
         404,
       map Routes.By_recommend (snd res))
  | Returned recommendations =>
      (Routes.mkResponse (Routes.Recommendations recommendations) 200,
       map Routes.By_recommend (snd res))
  end.

(** A request body that is a dict holding the string [name] under the key
    "movie". *)
Definition names_movie (body : Routes.Body) (name : string) : Prop :=
  exists members,
    body = Routes.Parsed (Web.JObj members) /\
    Web.lookup_last "movie" members = Some (Web.JStr name).

(** ** Facts about the Python operations *)

Section EnumerateFacts.
Context {A : Type}.

Lemma enumerate_from_length (l : list A) (start : nat) :
  List.length (enumerate_from start l) = List.length l.
Proof.
  revert start; induction l as [|x xs IH]; intros start; simpl; auto.
Qed.

Lemma enumerate_from_In (l : list A) (start i : nat) (x : A) :
  In (i, x) (enumerate_from start l) <->
  start <= i /\ nth_error l (i - start) = Some x.
Proof.
  revert start; induction l as [|y ys IH]; intros start; simpl.
  - split; [tauto|]. intros [_ H]. destruct (i - start); discriminate.
  - rewrite IH. split.
    + intros [E | [Hle Hn]].
      * inversion E; subst. split; [lia|]. now rewrite Nat.sub_diag.
      * split; [lia|]. replace (i - start) with (S (i - S start)) by lia.
        exact Hn.
    + intros [Hle Hn]. destruct (Nat.eq_dec start i) as [->|Hne].
      * left. rewrite Nat.sub_diag in Hn. simpl in Hn. congruence.
      * right. split; [lia|].
        replace (i - start) with (S (i - S start)) in Hn by lia. exact Hn.
Qed.

Lemma enumerate_In (l : list A) (i : nat) (x : A) :
  In (i, x) (enumerate l) <-> nth_error l i = Some x.
Proof.
  unfold enumerate. rewrite enumerate_from_In, Nat.sub_0_r.
  split; [tauto | split; [lia | assumption]].
Qed.

Lemma enumerate_from_increasing (l : list A) (start : nat) :
  StronglySorted (fun a b : nat * A => fst a < fst b) (enumerate_from start l).
Proof.
  revert start; induction l as [|x xs IH]; intros start; simpl; constructor.
  - apply IH.
  - apply Forall_forall. intros [i y] Hin.
    apply enumerate_from_In in Hin. simpl. lia.
Qed.
End EnumerateFacts.

Section SortedFacts.
Context {A : Type} (key : A -> Q).

Lemma insert_reverse_In (x y : A) (l : list A) :
  In y (insert_reverse key x l) <-> y = x \/ In y l.
Proof.
  induction l as [|z zs IH]; simpl.
  - intuition.
  - destruct (Qle_bool (key z) (key x)); simpl; [|rewrite IH]; intuition.
Qed.

Lemma sorted_reverse_In (y : A) (l : list A) :
  In y (sorted_reverse key l) <-> In y l.
Proof.
  induction l as [|x xs IH]; simpl; [tauto|].
  rewrite insert_reverse_In, IH. intuition.
Qed.

Lemma insert_reverse_length (x : A) (l : list A) :
  List.length (insert_reverse key x l) = S (List.length l).
Proof.
  induction l as [|z zs IH]; simpl; auto.
  destruct (Qle_bool (key z) (key x)); simpl; auto.
Qed.

Lemma sorted_reverse_length (l : list A) :
  List.length (sorted_reverse key l) = List.length l.
Proof.
  induction l as [|x xs IH]; simpl; auto.
  now rewrite insert_reverse_length, IH.
Qed.

Lemma sorted_reverse_Permutation (l : list A) :
  Permutation (sorted_reverse key l) l.
Proof.
  induction l as [|x xs IH]; simpl; [constructor|].
  transitivity (x :: sorted_reverse key xs); [|now constructor].
  generalize (sorted_reverse key xs) as s. clear.
  induction s as [|z zs IH]; simpl; [reflexivity|].
  destruct (Qle_bool (key z) (key x)); [reflexivity|].
  rewrite IH. apply perm_swap.
Qed.
End SortedFacts.

(** Sorting enumerated scores: stability turns ascending positions into the
    tie-break of [ranks_before]. *)
Section RankingOrder.

Lemma ranks_before_insert (x : nat * Q) (s : list (nat * Q)) :
  StronglySorted ranks_before s ->
  Forall (fun y => fst x < fst y) s ->
  StronglySorted ranks_before (insert_reverse (fun p : nat * Q => snd p) x s).
Proof.
  induction 1 as [|y ys Hs IH Hy]; intros Hpos; simpl.
  - repeat constructor.
  - inversion Hpos as [|? ? Hxy Hrest]; subst.
    destruct (Qle_bool (snd y) (snd x)) eqn:E.
    + apply Qle_bool_iff in E.
      assert (Hx : ranks_before x y).
      { unfold ranks_before. apply Qle_lteq in E.
        destruct E as [E|E]; [now left | right; split; [now symmetry | exact Hxy]]. }
      constructor; [now constructor|].
      constructor; [exact Hx|].
      rewrite Forall_forall in *. intros z Hz.
      specialize (Hy z Hz). specialize (Hrest z Hz).
      unfold ranks_before in *.
      assert (Hzy : (snd z <= snd y)%Q).
      { destruct Hy as [Hlt | [Heq _]];
          [now apply Qlt_le_weak | rewrite Heq; apply Qle_refl]. }
      assert (Hzx : (snd z <= snd x)%Q) by (eapply Qle_trans; eassumption).
      apply Qle_lteq in Hzx.
      destruct Hzx as [Hlt|Heq]; [now left | right; split; [now symmetry | exact Hrest]].
    + constructor; [now apply IH|].
      apply Forall_forall. intros z Hz.
      apply insert_reverse_In in Hz. destruct Hz as [-> | Hz].
      * left.
        apply Qnot_le_lt. intros Hle. apply Qle_bool_iff in Hle. congruence.
      * rewrite Forall_forall in Hy. now apply Hy.
Qed.

Lemma ranks_before_sorted_reverse (l : list (nat * Q)) :
  StronglySorted (fun a b => fst a < fst b) l ->
  StronglySorted ranks_before (sorted_reverse (fun p : nat * Q => snd p) l).
Proof.
  induction 1 as [|x xs Hs IH Hx]; simpl; [constructor|].
  apply ranks_before_insert; [exact IH|].
  rewrite Forall_forall in *. intros y Hy.
  apply Hx. now apply sorted_reverse_In in Hy.
Qed.

End RankingOrder.

Section SliceFacts.
Context {A : Type}.

Lemma In_firstn (n : nat) (l : list A) (x : A) :
  In x (firstn n l) -> In x l.
Proof.
  rewrite <- (firstn_skipn n l) at 2. rewrite in_app_iff. tauto.
Qed.

Lemma In_skipn (n : nat) (l : list A) (x : A) :
  In x (skipn n l) -> In x l.
Proof.
  rewrite <- (firstn_skipn n l) at 2. rewrite in_app_iff. tauto.
Qed.

Lemma slice_In (a b : nat) (l : list A) (x : A) :
  In x (slice a b l) -> In x l.
Proof.
  unfold slice. intros H.
  apply (In_skipn a). now apply (In_firstn (b - a)).
Qed.

Lemma slice_length (a b : nat) (l : list A) :
  List.length (slice a b l) = Nat.min (b - a) (List.length l - a).
Proof. unfold slice. now rewrite length_firstn, length_skipn. Qed.

Lemma StronglySorted_skipn (R : A -> A -> Prop) (n : nat) (l : list A) :
  StronglySorted R l -> StronglySorted R (skipn n l).
Proof.
  revert l; induction n as [|n IH]; intros l H; [exact H|].
  destruct H; simpl; [constructor | now apply IH].
Qed.

Lemma StronglySorted_firstn (R : A -> A -> Prop) (n : nat) (l : list A) :
  StronglySorted R l -> StronglySorted R (firstn n l).
Proof.
  revert l; induction n as [|n IH]; intros l H; [constructor|].
  destruct H as [|x xs Hs Hx]; simpl; constructor; [now apply IH|].
  rewrite Forall_forall in *. intros y Hy. apply Hx.
  now apply In_firstn in Hy.
Qed.

Lemma StronglySorted_slice (R : A -> A -> Prop) (a b : nat) (l : list A) :
  StronglySorted R l -> StronglySorted R (slice a b l).
Proof.
  intros H. unfold slice.
  now apply StronglySorted_firstn, StronglySorted_skipn.
Qed.
End SliceFacts.

(** ** Facts about the steps of recommend *)

Lemma sorted_distances_In (row : list Q) (i : nat) (s : Q) :
  In (i, s) (sorted_distances row) -> nth_error row i = Some s.
Proof.
  unfold sorted_distances. intros H.
  apply slice_In, sorted_reverse_In in H. now apply enumerate_In.
Qed.

Lemma sorted_distances_length (row : list Q) :
  List.length (sorted_distances row) = Nat.min 5 (List.length row - 1).
Proof.
  unfold sorted_distances, enumerate.
  now rewrite slice_length, sorted_reverse_length, enumerate_from_length.
Qed.

Lemma sorted_distances_ranked (row : list Q) :
  StronglySorted ranks_before (sorted_distances row).
Proof.
  unfold sorted_distances. apply StronglySorted_slice.
  apply ranks_before_sorted_reverse, enumerate_from_increasing.
Qed.

Lemma for_loop_Returned (df : DataFrame) (ds : list (nat * Q)) :
  forall acc recs,
    for_loop df ds acc = Returned recs ->
    exists new, recs = acc ++ new /\ Forall2 (shaped_from df) ds new.
Proof.
  induction ds as [|[i s] ds IH]; intros acc recs H; simpl in H.
  - inversion H; subst. exists []. split; [now rewrite app_nil_r | constructor].
  - unfold getitem in H. destruct (nth_error df i) as [m|] eqn:E; simpl in H;
      [|discriminate].
    apply IH in H. destruct H as (new & -> & HF).
    exists (shape m s :: new). split; [now rewrite <- app_assoc|].
    constructor; [|exact HF]. exists m. now split.
Qed.

Lemma for_loop_in_range (df : DataFrame) (ds : list (nat * Q)) :
  Forall (fun p => fst p < List.length df) ds ->
  forall acc, exists recs, for_loop df ds acc = Returned recs.
Proof.
  induction 1 as [|[i s] ds Hi Hds IH]; intros acc; simpl.
  - now exists acc.
  - simpl in Hi. unfold getitem.
    destruct (nth_error df i) as [m|] eqn:E; simpl.
    + apply IH.
    + apply nth_error_None in E. lia.
Qed.

Lemma movie_matches_In (movie_title : string) (df : DataFrame) (i : nat) (m : Movie) :
  In (i, m) (movie_matches movie_title df) <->
  nth_error df i = Some m /\ matches movie_title m.
Proof.
  unfold movie_matches, matches.
  rewrite filter_In, enumerate_In. simpl. now rewrite String.eqb_eq.
Qed.

Lemma movie_matches_increasing (movie_title : string) (df : DataFrame) :
  StronglySorted (fun a b : nat * Movie => fst a < fst b) (movie_matches movie_title df).
Proof.
  unfold movie_matches, enumerate.
  generalize (enumerate_from_increasing df 0).
  induction 1 as [|x xs Hs IH Hx]; simpl; [constructor|].
  destruct (String.eqb _ _); [|exact IH].
  constructor; [exact IH|].
  rewrite Forall_forall in *. intros y Hy. apply Hx.
  now apply filter_In in Hy.
Qed.

Lemma movie_matches_lower (q1 q2 : string) (df : DataFrame) :
  lower q1 = lower q2 -> movie_matches q1 df = movie_matches q2 df.
Proof. unfold movie_matches. now intros ->. Qed.

Lemma ranking_In (movie_title : string) (df : DataFrame) (sim : Matrix) (p : nat * Q) :
  In p (ranking movie_title df sim) ->
  exists index m rest row,
    movie_matches movie_title df = (index, m) :: rest /\
    nth_error sim index = Some row /\
    nth_error row (fst p) = Some (snd p).
Proof.
  unfold ranking.
  destruct (movie_matches movie_title df) as [|[index m] rest]; [contradiction|].
  destruct (nth_error sim index) as [row|] eqn:E; [|contradiction].
  intros H. exists index, m, rest, row. split; [reflexivity|]. split; [exact E|].
  destruct p as [i s]. now apply sorted_distances_In.
Qed.

Lemma ranking_ranked (movie_title : string) (df : DataFrame) (sim : Matrix) :
  StronglySorted ranks_before (ranking movie_title df sim).
Proof.
  unfold ranking.
  destruct (movie_matches movie_title df) as [|[index m] rest]; [constructor|].
  destruct (nth_error sim index); [apply sorted_distances_ranked | constructor].
Qed.

Lemma ranking_length (movie_title : string) (df : DataFrame) (sim : Matrix) :
  List.length (ranking movie_title df sim) <= 5.
Proof.
  unfold ranking.
  destruct (movie_matches movie_title df) as [|[index m] rest]; simpl; [lia|].
  destruct (nth_error sim index); simpl; [|lia].
  rewrite sorted_distances_length. lia.
Qed.

(** Every run returns, and what it returns is shaped, position by position,
    from a list [ranked] that is the whole ranking unless the result is
    empty. *)
Lemma recommend_shaped (movie_title : string) (df : DataFrame) (sim : Matrix) :
  exists recs ranked,
    fst (recommend movie_title df sim) = Returned recs /\
    Forall2 (shaped_from df) ranked recs /\
    (recs <> [] -> ranked = ranking movie_title df sim) /\
    incl ranked (ranking movie_title df sim).
Proof.
  unfold recommend, recommend_try, ranking.
  destruct (movie_matches movie_title df) as [|[index m] rest]; simpl.
  - exists [], []. repeat split; auto using incl_nil_l; congruence.
  - unfold getitem. destruct (nth_error sim index) as [row|]; simpl.
    + destruct (for_loop df (sorted_distances row) []) as [recs|e] eqn:E; simpl.
      * apply for_loop_Returned in E. destruct E as (new & -> & HF). simpl.
        exists new, (sorted_distances row). repeat split; auto using incl_refl.
      * exists [], []. repeat split; auto using incl_nil_l; congruence.
    + exists [], []. repeat split; auto using incl_nil_l; congruence.
Qed.

Lemma Forall2_same_length {A B : Type} (R : A -> B -> Prop) (l1 : list A) (l2 : list B) :
  Forall2 R l1 l2 -> List.length l1 = List.length l2.
Proof. induction 1; simpl; auto. Qed.





Lemma no_match_iff (movie_title : string) (df : DataFrame) :
  movie_matches movie_title df = [] <->
  forall m, In m df -> ~ matches movie_title m.
Proof.
  split.
  - intros E m Hin Hm. apply In_nth_error in Hin. destruct Hin as [i Hi].
    assert (H : In (i, m) (movie_matches movie_title df))
      by (apply movie_matches_In; now split).
    rewrite E in H. contradiction.
  - intros H. destruct (movie_matches movie_title df) as [|[i m] rest] eqn:E; [reflexivity|].
    assert (Hin : In (i, m) (movie_matches movie_title df)) by (rewrite E; now left).
    apply movie_matches_In in Hin. destruct Hin as [Hn Hm].
    exfalso. apply (H m); [eapply nth_error_In; eassumption | exact Hm].
Qed.

Lemma first_match (movie_title : string) (df : DataFrame)
      (index : nat) (m : Movie) (rest : list (nat * Movie)) :
  movie_matches movie_title df = (index, m) :: rest ->
  nth_error df index = Some m /\ matches movie_title m /\
  forall j m', j < index -> nth_error df j = Some m' -> ~ matches movie_title m'.
Proof.
  intros E.
  assert (Hin : In (index, m) (movie_matches movie_title df)) by (rewrite E; now left).
  apply movie_matches_In in Hin. destruct Hin as [Hn Hm].
  repeat split; auto.
  intros j m' Hj Hn' Hm'.
  assert (Hin' : In (j, m') (movie_matches movie_title df))
    by (apply movie_matches_In; now split).
  pose proof (movie_matches_increasing movie_title df) as Hs.
  rewrite E in Hin', Hs. destruct Hin' as [Heq | Hin'].
  - inversion Heq; subst. lia.
  - apply StronglySorted_inv in Hs. destruct Hs as [_ Hall].
    rewrite Forall_forall in Hall. specialize (Hall _ Hin'). simpl in Hall. lia.
Qed.

(** When the matched record's own score is strictly the largest of its row,
    the sort puts it first and the slice [1:6] drops it: this is the case
    the slice is written for. *)
Lemma self_excluded_when_strict_maximum (row : list Q) (index : nat) (own : Q) :
  nth_error row index = Some own ->
  (forall j s, nth_error row j = Some s -> j <> index -> (s < own)%Q) ->
  ~ In index (map fst (sorted_distances row)).
Proof.
  intros Hown Hmax Hin.
  apply in_map_iff in Hin. destruct Hin as ([i s] & Hi & Hin). simpl in Hi; subst i.
  unfold sorted_distances, slice in Hin. apply In_firstn in Hin.
  pose proof (ranks_before_sorted_reverse (enumerate row)
                (enumerate_from_increasing row 0)) as Hs.
  assert (Hmem : In (index, own) (sorted_reverse (fun x => snd x) (enumerate row)))
    by (apply sorted_reverse_In, enumerate_In; exact Hown).
  destruct (sorted_reverse (fun x : nat * Q => snd x) (enumerate row))
    as [|[h hs] tl] eqn:E; [contradiction|].
  simpl in Hin. apply StronglySorted_inv in Hs. destruct Hs as [Hs Hall].
  rewrite Forall_forall in Hall.
  assert (Hh : nth_error row h = Some hs).
  { apply enumerate_In, (sorted_reverse_In (fun x : nat * Q => snd x)).
    rewrite E. now left. }
  assert (Hs' : nth_error row index = Some s).
  { apply enumerate_In, (sorted_reverse_In (fun x : nat * Q => snd x)).
    rewrite E. now right. }
  assert (s = own) by congruence. subst s.
  specialize (Hall _ Hin). unfold ranks_before in Hall. simpl in Hall.
  destruct (Nat.eq_dec h index) as [->|Hne].
  - assert (hs = own) by congruence. subst hs.
    destruct Hall as [Hlt | [_ Hlt]]; [now apply Qlt_irrefl in Hlt | lia].
  - specialize (Hmax h hs Hh Hne).
    destruct Hall as [Hlt | [Heq _]].
    + apply (Qlt_irrefl own). eapply Qlt_trans; eassumption.
    + rewrite Heq in Hmax. now apply Qlt_irrefl in Hmax.
Qed.

(** ** The claims *)

(** C1 (fails on the code).  The claim: the result of [recommend] never
    contains the queried record itself, also when another record scores as
    high as the record scores against itself.  The code drops the first
    element of the sorted list, whatever it is.  Evaluated on two corpora:
    in [twins] the record "Beta" at position 1 has the same overview as the
    record at position 0, the tie puts position 0 first, and the query
    "Beta" returns "Beta" itself; in [stopword] the row of "Gamma" is all
    zero, and the query "Gamma" returns "Gamma" first. *)
Theorem C1_queried_record_recommended :
  (movie_matches "Beta" Samples.twins = [(1, Samples.beta)] /\
   ranking "Beta" Samples.twins Samples.twins_matrix = [(1, 1%Q)] /\
   fst (recommend "Beta" Samples.twins Samples.twins_matrix)
   = Returned [shape Samples.beta 1]) /\
  (movie_matches "Gamma" Samples.stopword = [(1, Samples.gamma)] /\
   ranking "Gamma" Samples.stopword Samples.stopword_matrix = [(1, 0%Q); (2, 0%Q)] /\
   fst (recommend "Gamma" Samples.stopword Samples.stopword_matrix)
   = Returned [shape Samples.gamma 0; shape Samples.delta 0]).
Proof. repeat split; vm_compute; reflexivity. Qed.

(** C2.  A non-empty result of [recommend] is shaped, position by position,
    from the ranking; every pair of the ranking is a position of the matched
    record's row with its unrounded score; and the ranking is sorted by
    non-increasing score, equal scores by increasing corpus position. *)
Theorem C2_ranking_order (movie_title : string) (df : DataFrame) (sim : Matrix)
        (recs : list Recommendation) :
  fst (recommend movie_title df sim) = Returned recs ->
  recs <> [] ->
  Forall2 (shaped_from df) (ranking movie_title df sim) recs /\
  (forall p, In p (ranking movie_title df sim) ->
     exists index m rest row,
       movie_matches movie_title df = (index, m) :: rest /\
       nth_error sim index = Some row /\
       nth_error row (fst p) = Some (snd p)) /\
  StronglySorted ranks_before (ranking movie_title df sim).
Proof.
  intros Hret Hne.
  destruct (recommend_shaped movie_title df sim) as (recs' & ranked & E & HF & Hall & _).
  rewrite E in Hret. inversion Hret; subst recs'.
  rewrite <- (Hall Hne). split; [exact HF|].
  rewrite (Hall Hne). split; [apply ranking_In | apply ranking_ranked].
Qed.

Lemma C2_ranking_order_witness :
  ranking "m0" Samples.four Samples.four_matrix = [(2, 0.7%Q); (1, 0.5%Q); (3, 0.5%Q)] /\
  Forall2 (shaped_from Samples.four)
          (ranking "m0" Samples.four Samples.four_matrix)
          [shape (mkMovie "M2" Samples.space None) 0.7%Q;
           shape (mkMovie "M1" Samples.space None) 0.5%Q;
           shape (mkMovie "M3" Samples.space None) 0.5%Q] /\
  StronglySorted ranks_before (ranking "m0" Samples.four Samples.four_matrix).
Proof.
  split; [vm_compute; reflexivity|].
  destruct (C2_ranking_order "m0" Samples.four Samples.four_matrix
              [shape (mkMovie "M2" Samples.space None) 0.7%Q;
               shape (mkMovie "M1" Samples.space None) 0.5%Q;
               shape (mkMovie "M3" Samples.space None) 0.5%Q])
    as (HF & _ & Hs); [vm_compute; reflexivity | discriminate |].
  split; assumption.
Defined.


(** C4 (as stated, fails).  The claim: a title that matches no record makes
    [recommend] fail with an error value that differs from a normal result.
    No record of [abc] matches "Nonexistent Title"; the call returns the
    empty list, raises nothing, and its result is the result of the
    successful query "Alpha" on the one-record corpus. *)
Lemma C4_not_found_returns_empty_list :
  (forall m, In m Samples.abc -> ~ matches "Nonexistent Title" m) /\
  fst (recommend "Nonexistent Title" Samples.abc Samples.abc_matrix) = Returned [] /\
  (forall e, fst (recommend "Nonexistent Title" Samples.abc Samples.abc_matrix)
             <> Raised e) /\
  fst (recommend "Nonexistent Title" Samples.abc Samples.abc_matrix)
  = fst (recommend "Alpha" Samples.single Samples.single_matrix).
Proof.
  split.
  - apply no_match_iff. vm_compute. reflexivity.
  - repeat split; try (vm_compute; reflexivity).
    intros e. vm_compute. discriminate.
Qed.

(** C4 (amended).  For a title that matches no record, [recommend] returns
    the empty list as a normal result, and logs one warning that carries the
    title. *)
Theorem C4_not_found_empty_list_and_warning
        (movie_title : string) (df : DataFrame) (sim : Matrix) :
  (forall m, In m df -> ~ matches movie_title m) ->
  recommend movie_title df sim = (Returned [], [Warning_not_found movie_title]).
Proof.
  intros H. apply no_match_iff in H.
  unfold recommend, recommend_try. now rewrite H.
Qed.

Lemma C4_not_found_empty_list_and_warning_witness :
  recommend "Nonexistent Title" Samples.abc Samples.abc_matrix
  = (Returned [], [Warning_not_found "Nonexistent Title"]).
Proof.
  apply (C4_not_found_empty_list_and_warning
           "Nonexistent Title" Samples.abc Samples.abc_matrix).
  apply no_match_iff. vm_compute. reflexivity.
Defined.


(** The truncation seen on a run: 160 characters are cut to 150 and "...",
    150 characters are returned as stored. *)
Example overview_truncation_run :
  map rec_overview
      (match fst (recommend "alpha" Samples.lengths Samples.lengths_matrix) with
       | Returned recs => recs
       | Raised _ => []
       end)
  = [(Samples.overview150 ++ "...")%string; Samples.overview150] /\
  String.length Samples.overview160 = 160 /\
  String.length Samples.overview150 = 150.
Proof. repeat split; vm_compute; reflexivity. Qed.

(** C6.  On the square matrix of a corpus of fewer than six records, a
    title that matches a record makes [recommend] return, without logging an
    error, one dictionary per record but one. *)
Theorem C6_small_corpus (movie_title : string) (df : DataFrame) (sim : Matrix) :
  square_on df sim ->
  List.length df < 5 + 1 ->
  (exists m, In m df /\ matches movie_title m) ->
  exists recs,
    recommend movie_title df sim = (Returned recs, []) /\
    List.length recs = List.length df - 1.
Proof.
  intros [Hrows Hcols] Hsmall (m0 & Hin0 & Hm0).
  unfold recommend, recommend_try.
  destruct (movie_matches movie_title df) as [|[index m] rest] eqn:E.
  { exfalso. exact (proj1 (no_match_iff movie_title df) E m0 Hin0 Hm0). }
  apply first_match in E. destruct E as (Hn & _ & _).
  assert (Hidx : index < List.length sim).
  { rewrite Hrows. apply nth_error_Some. congruence. }
  unfold getitem.
  destruct (nth_error sim index) as [row|] eqn:Erow;
    [|apply nth_error_None in Erow; lia].
  simpl.
  assert (Hlen : List.length row = List.length df).
  { rewrite Forall_forall in Hcols. apply Hcols. eapply nth_error_In; eassumption. }
  destruct (for_loop_in_range df (sorted_distances row)) with (acc := @nil Recommendation)
    as [recs Hrecs].
  { apply Forall_forall. intros [i s] Hp. simpl.
    apply sorted_distances_In in Hp. rewrite <- Hlen.
    apply nth_error_Some. congruence. }
  rewrite Hrecs. exists recs. split; [reflexivity|].
  apply for_loop_Returned in Hrecs. destruct Hrecs as (new & -> & HF). simpl.
  rewrite <- (Forall2_same_length _ _ _ HF), sorted_distances_length. lia.
Qed.

Lemma C6_small_corpus_witness :
  exists recs,
    recommend "alpha" Samples.twins Samples.twins_matrix = (Returned recs, []) /\
    List.length recs = 1.
Proof.
  apply (C6_small_corpus "alpha" Samples.twins Samples.twins_matrix).
  - split; [reflexivity | repeat constructor].
  - simpl. lia.
  - exists Samples.alpha. split; [now left | reflexivity].
Defined.

Lemma smallest_match_is_first (movie_title : string) (df : DataFrame)
      (index : nat) (m : Movie) :
  nth_error df index = Some m ->
  matches movie_title m ->
  (forall j m', j < index -> nth_error df j = Some m' -> ~ matches movie_title m') ->
  exists rest, movie_matches movie_title df = (index, m) :: rest.
Proof.
  intros Hn Hm Hmin.
  destruct (movie_matches movie_title df) as [|[i0 m0] rest] eqn:E.
  - exfalso. apply (proj1 (no_match_iff movie_title df) E m); [|exact Hm].
    eapply nth_error_In; eassumption.
  - destruct (first_match _ _ _ _ _ E) as (Hn0 & Hm0 & Hmin0).
    assert (i0 = index).
    { destruct (Nat.lt_trichotomy i0 index) as [Hlt | [Heq | Hgt]]; [|exact Heq|].
      - exfalso. exact (Hmin i0 m0 Hlt Hn0 Hm0).
      - exfalso. exact (Hmin0 index m Hgt Hn Hm). }
    subst i0. assert (m0 = m) by congruence. subst m0. now exists rest.
Qed.

(** C7.  Title lookup compares the whole lowered strings: queries that are
    equal once lowered give the same result; no record is matched exactly
    when no record's lowered title equals the lowered query, and [recommend]
    then returns the empty list with the not-found warning; the record
    matched is one whose lowered title equals the lowered query, at the
    smallest corpus position where that holds; and it is the row of that
    record, the first of the records that share the title, that [recommend]
    ranks and shapes its result from. *)
Theorem C7_case_insensitive_exact_first
        (movie_title : string) (df : DataFrame) (sim : Matrix) :
  (forall other, lower other = lower movie_title ->
     fst (recommend other df sim) = fst (recommend movie_title df sim)) /\
  (movie_matches movie_title df = [] <->
   forall m, In m df -> lower (title m) <> lower movie_title) /\
  (forall index m rest,
     movie_matches movie_title df = (index, m) :: rest ->
     nth_error df index = Some m /\
     lower (title m) = lower movie_title /\
     forall j m', j < index -> nth_error df j = Some m' ->
                  lower (title m') <> lower movie_title) /\
  ((forall m, In m df -> lower (title m) <> lower movie_title) ->
   recommend movie_title df sim = (Returned [], [Warning_not_found movie_title])) /\
  (forall index m row,
     nth_error df index = Some m ->
     lower (title m) = lower movie_title ->
     (forall j m', j < index -> nth_error df j = Some m' ->
                   lower (title m') <> lower movie_title) ->
     nth_error sim index = Some row ->
     Forall (fun p => fst p < List.length df) (sorted_distances row) ->
     exists recs,
       recommend movie_title df sim = (Returned recs, []) /\
       Forall2 (shaped_from df) (sorted_distances row) recs).
Proof.
  split; [|split; [|split; [|split]]].
  - intros other H. unfold recommend, recommend_try.
    rewrite (movie_matches_lower other movie_title df H).
    destruct (movie_matches movie_title df) as [|[index m] rest]; reflexivity.
  - apply no_match_iff.
  - intros index m rest E. exact (first_match _ _ _ _ _ E).
  - intros H. apply no_match_iff in H.
    unfold recommend, recommend_try. now rewrite H.
  - intros index m row Hn Hm Hmin Hrow Hrange.
    destruct (smallest_match_is_first movie_title df index m Hn Hm Hmin) as [rest E].
    unfold recommend, recommend_try, getitem. rewrite E, Hrow. simpl.
    destruct (for_loop_in_range df (sorted_distances row) Hrange (@nil Recommendation))
      as [recs Hrecs].
    rewrite Hrecs. exists recs. split; [reflexivity|].
    apply for_loop_Returned in Hrecs. destruct Hrecs as (new & -> & HF). exact HF.
Qed.

Lemma C7_case_insensitive_exact_first_witness :
  fst (recommend "HEAT" Samples.remakes Samples.remakes_matrix)
  = fst (recommend "heat" Samples.remakes Samples.remakes_matrix) /\
  recommend "Hea" Samples.remakes Samples.remakes_matrix
  = (Returned [], [Warning_not_found "Hea"]) /\
  (nth_error Samples.remakes 1 = Some Samples.dup_first /\
   lower (title Samples.dup_first) = lower "heat" /\
   forall j m', j < 1 -> nth_error Samples.remakes j = Some m' ->
                lower (title m') <> lower "heat") /\
  sorted_distances [0.9; 1; 0.2; 0.3]%Q = [(0, 0.9%Q); (3, 0.3%Q); (2, 0.2%Q)] /\
  exists recs,
    recommend "heat" Samples.remakes Samples.remakes_matrix = (Returned recs, []) /\
    Forall2 (shaped_from Samples.remakes) (sorted_distances [0.9; 1; 0.2; 0.3]%Q) recs.
Proof.
  pose proof (C7_case_insensitive_exact_first
                "heat" Samples.remakes Samples.remakes_matrix)
    as (Hcase & _ & Hfirst & _ & Hrow).
  pose proof (C7_case_insensitive_exact_first
                "Hea" Samples.remakes Samples.remakes_matrix)
    as (_ & Hnone & _ & Hwarn & _).
  split; [apply Hcase; reflexivity|].
  split; [apply Hwarn, Hnone; vm_compute; reflexivity|].
  split; [apply (Hfirst 1 Samples.dup_first [(2, Samples.dup_second)]);
          vm_compute; reflexivity|].
  split; [vm_compute; reflexivity|].
  apply (Hrow 1 Samples.dup_first [0.9; 1; 0.2; 0.3]%Q); try reflexivity.
  - intros j m' Hj Hn. destruct j as [|j]; [|lia].
    simpl in Hn. inversion Hn; subst m'. vm_compute. discriminate.
  - vm_compute. repeat constructor.
Defined.

(** C9.  [recommend] always returns: a title that matches no record, an
    exception raised inside the [try] block, and a matching query on a
    one-record corpus with its 1 x 1 matrix all give the empty list. *)
Theorem C9_every_failure_is_the_empty_list
        (movie_title : string) (df : DataFrame) (sim : Matrix) :
  (exists recs, fst (recommend movie_title df sim) = Returned recs) /\
  ((forall m, In m df -> ~ matches movie_title m) ->
   fst (recommend movie_title df sim) = Returned []) /\
  (forall e, fst (recommend_try movie_title df sim) = Raised e ->
   fst (recommend movie_title df sim) = Returned []) /\
  (forall m s, df = [m] -> sim = [[s]] -> matches movie_title m ->
   fst (recommend movie_title df sim) = Returned []).
Proof.
  split; [|split; [|split]].
  - destruct (recommend_shaped movie_title df sim) as (recs & _ & E & _).
    now exists recs.
  - intros H. apply no_match_iff in H.
    unfold recommend, recommend_try. now rewrite H.
  - intros e. unfold recommend.
    destruct (recommend_try movie_title df sim) as [[recs|e'] log]; simpl;
      [discriminate | reflexivity].
  - intros m s -> -> Hm. unfold matches in Hm.
    unfold recommend, recommend_try, movie_matches. simpl.
    apply String.eqb_eq in Hm. rewrite Hm. reflexivity.
Qed.

Lemma C9_every_failure_is_the_empty_list_witness :
  fst (recommend "Nonexistent Title" Samples.abc Samples.abc_matrix) = Returned [] /\
  (fst (recommend_try "beta" Samples.twins Samples.short_matrix) = Raised IndexError /\
   fst (recommend "beta" Samples.twins Samples.short_matrix) = Returned []) /\
  fst (recommend "alpha" Samples.single Samples.single_matrix) = Returned [].
Proof.
  split; [|split; [split|]].
  - apply (proj1 (proj2 (C9_every_failure_is_the_empty_list
                           "Nonexistent Title" Samples.abc Samples.abc_matrix))).
    apply no_match_iff. vm_compute. reflexivity.
  - vm_compute. reflexivity.
  - apply (proj1 (proj2 (proj2 (C9_every_failure_is_the_empty_list
                                  "beta" Samples.twins Samples.short_matrix)))
             IndexError).
    vm_compute. reflexivity.
  - apply (proj2 (proj2 (proj2 (C9_every_failure_is_the_empty_list
                                  "alpha" Samples.single Samples.single_matrix)))
             Samples.alpha 1%Q); reflexivity.
Defined.

(** An exception raised while shaping, after some dictionaries were already
    appended, also gives the empty list: the row has one column more than
    the frame has records. *)
Example shaping_failure_run :
  recommend "alpha" Samples.twins [[1; 1; 1]; [1; 1; 1]]%Q
  = (Returned [], [Error_generating IndexError]).
Proof. vm_compute. reflexivity. Qed.

(** Five is reached: a row of eight scores is ranked to five positions. *)
Example five_of_eight :
  sorted_distances [1; 0.5; 0.7; 0.5; 0.9; 0.7; 0.1; 0.2]%Q
  = [(4, 0.9%Q); (2, 0.7%Q); (5, 0.7%Q); (1, 0.5%Q); (3, 0.5%Q)].
Proof. vm_compute. reflexivity. Qed.

(** C10.  [recommend] returns at most five dictionaries, whatever the title,
    the frame and the matrix; the bound is the constant of the slice [1:6]
    and no argument of [recommend] changes it. *)
Theorem C10_at_most_five (movie_title : string) (df : DataFrame) (sim : Matrix) :
  exists recs,
    fst (recommend movie_title df sim) = Returned recs /\
    List.length recs <= 5.
Proof.
  destruct (recommend_shaped movie_title df sim) as (recs & ranked & E & HF & Hall & _).
  exists recs. split; [exact E|].
  destruct recs as [|r recs]; [simpl; lia|].
  rewrite <- (Forall2_same_length _ _ _ HF), Hall by discriminate.
  apply ranking_length.
Qed.

(** ** Further properties of the ranking *)

Lemma StronglySorted_app_inv {A : Type} (R : A -> A -> Prop) (l1 l2 : list A) :
  StronglySorted R (l1 ++ l2) ->
  forall x y, In x l1 -> In y l2 -> R x y.
Proof.
  induction l1 as [|a l1 IH]; simpl; intros H x y Hx Hy; [contradiction|].
  apply StronglySorted_inv in H. destruct H as [Hs Hall].
  destruct Hx as [<- | Hx].
  - rewrite Forall_forall in Hall. apply Hall, in_or_app. now right.
  - now apply IH.
Qed.

Lemma enumerate_from_positions {A : Type} (l : list A) (start : nat) :
  map fst (enumerate_from start l) = seq start (List.length l).
Proof.
  revert start; induction l as [|x xs IH]; intros start; simpl; [reflexivity|].
  now rewrite IH.
Qed.

Lemma sorted_distances_NoDup (row : list Q) :
  NoDup (map fst (sorted_distances row)).
Proof.
  unfold sorted_distances, slice.
  rewrite <- firstn_map, <- skipn_map.
  assert (H : NoDup (map fst (sorted_reverse (fun x : nat * Q => snd x) (enumerate row)))).
  { eapply Permutation_NoDup.
    - apply Permutation_map, Permutation_sym, sorted_reverse_Permutation.
    - unfold enumerate. rewrite enumerate_from_positions. apply seq_NoDup. }
  revert H. generalize (map fst (sorted_reverse (fun x : nat * Q => snd x) (enumerate row))).
  intros l H.
  rewrite <- (firstn_skipn 1 l) in H. apply NoDup_app_remove_l in H.
  rewrite <- (firstn_skipn (6 - 1) (skipn 1 l)) in H.
  now apply NoDup_app_remove_r in H.
Qed.

(** With a square matrix and a matching title, every step of [recommend]
    succeeds and the result has one dictionary per ranked position. *)
Lemma recommend_on_square (movie_title : string) (df : DataFrame) (sim : Matrix) :
  square_on df sim ->
  (exists m, In m df /\ matches movie_title m) ->
  exists recs,
    recommend movie_title df sim = (Returned recs, []) /\
    List.length recs = Nat.min 5 (List.length df - 1).
Proof.
  intros [Hrows Hcols] (m0 & Hin0 & Hm0).
  unfold recommend, recommend_try.
  destruct (movie_matches movie_title df) as [|[index m] rest] eqn:E.
  { exfalso. exact (proj1 (no_match_iff movie_title df) E m0 Hin0 Hm0). }
  apply first_match in E. destruct E as (Hn & _ & _).
  assert (Hidx : index < List.length sim).
  { rewrite Hrows. apply nth_error_Some. congruence. }
  unfold getitem.
  destruct (nth_error sim index) as [row|] eqn:Erow;
    [|apply nth_error_None in Erow; lia].
  simpl.
  assert (Hlen : List.length row = List.length df).
  { rewrite Forall_forall in Hcols. apply Hcols. eapply nth_error_In; eassumption. }
  destruct (for_loop_in_range df (sorted_distances row)) with (acc := @nil Recommendation)
    as [recs Hrecs].
  { apply Forall_forall. intros [i s] Hp. simpl.
    apply sorted_distances_In in Hp. rewrite <- Hlen.
    apply nth_error_Some. congruence. }
  rewrite Hrecs. exists recs. split; [reflexivity|].
  apply for_loop_Returned in Hrecs. destruct Hrecs as (new & -> & HF). simpl.
  rewrite <- (Forall2_same_length _ _ _ HF), sorted_distances_length.
  now rewrite Hlen.
Qed.

(** X1.  On the square matrix of a corpus of N records, a title that matches
    a record makes [recommend] return exactly min(5, N - 1) dictionaries and
    log nothing. *)
Theorem recommend_count (movie_title : string) (df : DataFrame) (sim : Matrix) :
  square_on df sim ->
  (exists m, In m df /\ matches movie_title m) ->
  exists recs,
    recommend movie_title df sim = (Returned recs, []) /\
    List.length recs = Nat.min 5 (List.length df - 1).
Proof. apply recommend_on_square. Qed.

Lemma recommend_count_witness :
  exists recs,
    recommend "M0" Samples.four Samples.four_matrix = (Returned recs, []) /\
    List.length recs = 3.
Proof.
  apply (recommend_count "M0" Samples.four Samples.four_matrix).
  - split; [reflexivity | repeat constructor].
  - exists (mkMovie "M0" Samples.space None). split; [now left | reflexivity].
Defined.

(** X2.  When the matched record's own score is strictly larger than every
    other score of its row, its position is not in the ranking: the slice
    [1:6] then drops the queried record, as it is meant to. *)
Theorem ranking_excludes_strict_maximum
        (movie_title : string) (df : DataFrame) (sim : Matrix)
        (index : nat) (m : Movie) (rest : list (nat * Movie))
        (row : list Q) (own : Q) :
  movie_matches movie_title df = (index, m) :: rest ->
  nth_error sim index = Some row ->
  nth_error row index = Some own ->
  (forall j s, nth_error row j = Some s -> j <> index -> (s < own)%Q) ->
  ~ In index (map fst (ranking movie_title df sim)).
Proof.
  intros Hm Hrow Hown Hmax. unfold ranking. rewrite Hm, Hrow.
  eapply self_excluded_when_strict_maximum; eassumption.
Qed.

Lemma ranking_excludes_strict_maximum_witness :
  ~ In 0 (map fst (ranking "M0" Samples.four Samples.four_matrix)).
Proof.
  apply (ranking_excludes_strict_maximum
           "M0" Samples.four Samples.four_matrix 0
           (mkMovie "M0" Samples.space None)
           [] [1; 0.5; 0.7; 0.5]%Q 1%Q); try reflexivity.
  intros j s Hj Hne.
  destruct j as [|[|[|[|j]]]]; simpl in Hj; try congruence;
    try (inversion Hj; subst; reflexivity).
  destruct j; discriminate.
Defined.

(** X3.  The ranking holds the best positions after the dropped one: a
    position of the row that is not ranked is either the first element of
    the sorted list, which the slice drops, or it ranks after every ranked
    position (smaller score, or equal score and larger position). *)
Theorem sorted_distances_are_the_best (row : list Q) (i j : nat) (s t : Q) :
  In (i, s) (sorted_distances row) ->
  nth_error row j = Some t ->
  ~ In (j, t) (sorted_distances row) ->
  hd_error (sorted_reverse (fun x => snd x) (enumerate row)) = Some (j, t) \/
  ranks_before (i, s) (j, t).
Proof.
  intros Hi Hj Hout.
  pose proof (ranks_before_sorted_reverse (enumerate row)
                (enumerate_from_increasing row 0)) as Hs.
  assert (Hmem : In (j, t) (sorted_reverse (fun x => snd x) (enumerate row)))
    by (apply sorted_reverse_In, enumerate_In; exact Hj).
  unfold sorted_distances, slice in Hi, Hout.
  destruct (sorted_reverse (fun x : nat * Q => snd x) (enumerate row))
    as [|h tl]; [contradiction|].
  simpl in Hi, Hout. destruct Hmem as [-> | Hmem]; [now left | right].
  apply StronglySorted_inv in Hs. destruct Hs as [Hs _].
  rewrite <- (firstn_skipn 5 tl) in Hs, Hmem.
  apply in_app_or in Hmem. destruct Hmem as [Hmem | Hmem]; [contradiction|].
  eapply StronglySorted_app_inv; eassumption.
Qed.

Lemma sorted_distances_are_the_best_witness :
  hd_error (sorted_reverse (fun x => snd x)
                           (enumerate [1; 0.5; 0.7; 0.5; 0.9; 0.7; 0.1; 0.2]%Q))
  = Some (6, 0.1%Q) \/
  ranks_before (3, 0.5%Q) (6, 0.1%Q).
Proof.
  apply (sorted_distances_are_the_best
           [1; 0.5; 0.7; 0.5; 0.9; 0.7; 0.1; 0.2]%Q 3 6 0.5%Q 0.1%Q).
  - vm_compute. tauto.
  - reflexivity.
  - vm_compute. intros H.
    repeat (destruct H as [H | H]; [discriminate|]). exact H.
Defined.

(** X4.  No position is ranked twice: the positions of the ranking are
    pairwise distinct, so one call never returns the same record at two
    places. *)
Theorem ranking_positions_distinct (movie_title : string) (df : DataFrame) (sim : Matrix) :
  NoDup (map fst (ranking movie_title df sim)).
Proof.
  unfold ranking.
  destruct (movie_matches movie_title df) as [|[index m] rest]; [constructor|].
  destruct (nth_error sim index); [apply sorted_distances_NoDup | constructor].
Qed.

(** ** Properties of load_data *)

Lemma dropna_rows (rows : list CsvRow) :
  map row_of (dropna rows) = filter complete rows.
Proof.
  unfold dropna.
  induction rows as [|[t o p] rows IH]; [reflexivity|].
  destruct t as [t|], o as [o|]; cbn; rewrite IH; reflexivity.
Qed.

Lemma dropna_nil_iff (rows : list CsvRow) :
  dropna rows = [] <->
  forall r, In r rows -> Title r = None \/ Overview r = None.
Proof.
  induction rows as [|[t o p] rows IH]; simpl.
  - split; [intros _ r [] | reflexivity].
  - destruct t as [t|], o as [o|]; simpl.
    + split; [discriminate|]. intros H.
      destruct (H (mkCsvRow (Some t) (Some o) p) (or_introl eq_refl)); discriminate.
    + rewrite IH. split.
      * intros H r [<- | Hr]; [now right | now apply H].
      * intros H r Hr. apply H. now right.
    + rewrite IH. split.
      * intros H r [<- | Hr]; [now left | now apply H].
      * intros H r Hr. apply H. now right.
    + rewrite IH. split.
      * intros H r [<- | Hr]; [now left | now apply H].
      * intros H r Hr. apply H. now right.
Qed.

Lemma missing_columns_nil_iff (cols : list string) :
  filter (fun col => negb (existsb (String.eqb col) cols)) required_columns = [] <->
  forall col, In col required_columns -> In col cols.
Proof.
  assert (Hmem : forall col, existsb (String.eqb col) cols = true <-> In col cols).
  { intros col. rewrite existsb_exists. split.
    - intros (x & Hx & E). apply String.eqb_eq in E. now subst.
    - intros H. exists col. split; [exact H | apply String.eqb_refl]. }
  split.
  - intros E col Hin. apply Hmem.
    destruct (existsb (String.eqb col) cols) eqn:Ex; [reflexivity|].
    assert (Hf : In col (filter (fun col => negb (existsb (String.eqb col) cols))
                                required_columns))
      by (apply filter_In; split; [exact Hin | now rewrite Ex]).
    rewrite E in Hf. contradiction.
  - intros H.
    destruct (filter (fun col => negb (existsb (String.eqb col) cols)) required_columns)
      as [|col rest] eqn:E; [reflexivity|].
    assert (Hf : In col (filter (fun col => negb (existsb (String.eqb col) cols))
                                required_columns))
      by (rewrite E; now left).
    apply filter_In in Hf. destruct Hf as [Hin Hneg].
    apply H, Hmem in Hin. rewrite Hin in Hneg. discriminate.
Qed.

Lemma load_data_cases (disk : Disk) :
  match fst (load_data disk) with
  | Some df =>
      exists csv, disk = Readable csv /\
                  (forall col, In col required_columns -> In col (columns csv)) /\
                  df = dropna (csv_rows csv) /\ df <> [] /\
                  snd (load_data disk)
                  = [Info_loaded (List.length df)
                                 (List.length (csv_rows csv) - List.length df)]
  | None =>
      disk = No_file \/ (exists str_e, disk = Unreadable str_e) \/
      exists csv, disk = Readable csv /\
                  (~ (forall col, In col required_columns -> In col (columns csv)) \/
                   dropna (csv_rows csv) = [])
  end.
Proof.
  destruct disk as [|str_e|csv];
    [now left | right; left; now exists str_e |].
  pose proof (missing_columns_nil_iff (columns csv)) as Hcols.
  unfold load_data. cbv zeta.
  destruct (filter (fun col => negb (existsb (String.eqb col) (columns csv)))
                   required_columns) as [|col rest] eqn:E.
  - destruct (dropna (csv_rows csv)) as [|m df] eqn:Ed; cbn [List.length Nat.eqb fst snd].
    + right; right. exists csv. split; [reflexivity | now right].
    + exists csv. split; [reflexivity|]. split; [now apply Hcols|].
      split; [now rewrite Ed|]. split; [discriminate | reflexivity].
  - cbn [fst]. right; right. exists csv. split; [reflexivity | left].
    intros H. apply Hcols in H. discriminate.
Qed.

(** X5.  [load_data] returns [None] exactly when there is no file, or
    [pd.read_csv] raises, or one of the columns Title, Overview, Poster_Url
    is missing from the header (the names are compared as written), or no row
    has both its title and its overview. *)
Theorem load_data_fails_iff (disk : Disk) :
  fst (load_data disk) = None <->
  disk = No_file \/
  (exists str_e, disk = Unreadable str_e) \/
  (exists csv, disk = Readable csv /\
     ((exists col, In col required_columns /\ ~ In col (columns csv)) \/
      (forall r, In r (csv_rows csv) -> Title r = None \/ Overview r = None))).
Proof.
  split.
  - intros H. pose proof (load_data_cases disk) as Hc. rewrite H in Hc.
    destruct Hc as [-> | [(e & ->) | (csv & -> & Hbad)]];
      [now left | right; left; now exists e | right; right].
    exists csv. split; [reflexivity|].
    destruct Hbad as [Hcols | Hrows].
    + left.
      destruct (in_dec string_dec "Title" (columns csv)) as [H1|H1];
        [|exists "Title"; split; [simpl; tauto | exact H1]].
      destruct (in_dec string_dec "Overview" (columns csv)) as [H2|H2];
        [|exists "Overview"; split; [simpl; tauto | exact H2]].
      destruct (in_dec string_dec "Poster_Url" (columns csv)) as [H3|H3];
        [|exists "Poster_Url"; split; [simpl; tauto | exact H3]].
      exfalso. apply Hcols. intros col [<- | [<- | [<- | []]]]; assumption.
    + right. now apply dropna_nil_iff.
  - intros [-> | [(e & ->) | (csv & -> & Hbad)]]; try reflexivity.
    pose proof (load_data_cases (Readable csv)) as Hc.
    destruct (fst (load_data (Readable csv))) as [df|]; [|reflexivity].
    destruct Hc as (csv' & E & Hcols & -> & Hne & _). inversion E; subst csv'.
    destruct Hbad as [(col & Hin & Hnot) | Hrows].
    + exfalso. apply Hnot, Hcols, Hin.
    + exfalso. apply Hne. now apply dropna_nil_iff.
Qed.

(** X6.  When [load_data] returns a frame, the frame is not empty; read back
    as rows it is exactly the list of the file's rows that have a title and
    an overview, in the file's order, their poster cells untouched; and the
    log records how many rows were kept and how many were dropped. *)
Theorem load_data_keeps_complete_rows (disk : Disk) (df : DataFrame) :
  fst (load_data disk) = Some df ->
  exists csv,
    disk = Readable csv /\
    df <> [] /\
    map row_of df = filter complete (csv_rows csv) /\
    exists removed,
      snd (load_data disk) = [Info_loaded (List.length df) removed] /\
      List.length df + removed = List.length (csv_rows csv).
Proof.
  intros H. pose proof (load_data_cases disk) as Hc. rewrite H in Hc.
  destruct Hc as (csv & -> & _ & -> & Hne & Hlog).
  exists csv. repeat split; auto using dropna_rows.
  exists (List.length (csv_rows csv) - List.length (dropna (csv_rows csv))).
  split; [exact Hlog|].
  assert (Hle : List.length (dropna (csv_rows csv)) <= List.length (csv_rows csv)).
  { rewrite <- (length_map row_of), dropna_rows. apply filter_length_le. }
  lia.
Qed.

Lemma load_data_keeps_complete_rows_witness :
  exists csv,
    Readable (mkCsvFrame ["Title"; "Overview"; "Poster_Url"; "Year"]
                [mkCsvRow (Some "A") (Some "x") None;
                 mkCsvRow None (Some "y") (Some "q.png");
                 mkCsvRow (Some "C") (Some "z") (Some "p.png")])
    = Readable csv /\
    [mkMovie "A" "x" None; mkMovie "C" "z" (Some "p.png")] <> [] /\
    map row_of [mkMovie "A" "x" None; mkMovie "C" "z" (Some "p.png")]
    = filter complete (csv_rows csv) /\
    exists removed,
      snd (load_data
             (Readable (mkCsvFrame ["Title"; "Overview"; "Poster_Url"; "Year"]
                [mkCsvRow (Some "A") (Some "x") None;
                 mkCsvRow None (Some "y") (Some "q.png");
                 mkCsvRow (Some "C") (Some "z") (Some "p.png")])))
      = [Info_loaded 2 removed] /\
      2 + removed = List.length (csv_rows csv).
Proof.
  apply (load_data_keeps_complete_rows
           (Readable (mkCsvFrame ["Title"; "Overview"; "Poster_Url"; "Year"]
                [mkCsvRow (Some "A") (Some "x") None;
                 mkCsvRow None (Some "y") (Some "q.png");
                 mkCsvRow (Some "C") (Some "z") (Some "p.png")]))
           [mkMovie "A" "x" None; mkMovie "C" "z" (Some "p.png")]).
  reflexivity.
Defined.

(** ** The poster of a record read from the file *)






(** A run: the record read from the line with the empty poster field comes
    back with the placeholder. *)
Example empty_poster_field_run :
  fst (load_data (Readable (read_csv default_na_values
                              ["Title"; "Overview"; "Poster_Url"]
                              [mkCsvLine "Alpha" Samples.space "a.png";
                               mkCsvLine "Beta" Samples.space ""])))
  = Some [mkMovie "Alpha" Samples.space (Some "a.png");
          mkMovie "Beta" Samples.space None] /\
  map rec_poster_url
      (match fst (recommend "alpha"
                    [mkMovie "Alpha" Samples.space (Some "a.png");
                     mkMovie "Beta" Samples.space None]
                    Samples.twins_matrix) with
       | Returned recs => recs
       | Raised _ => []
       end)
  = [placeholder].
Proof. split; vm_compute; reflexivity. Qed.

(** ** Properties of compute_similarity and initialize_app *)

Section LibrariesFacts.

Variable tfidf_cosine : list string -> Matrix + string.

Lemma compute_similarity_caches (df_hash : Z) (st : State) :
  cache (snd (fst (compute_similarity tfidf_cosine df_hash st)))
  = Some (df_hash, fst (fst (compute_similarity tfidf_cosine df_hash st))).
Proof.
  unfold compute_similarity.
  destruct (cache st) as [[key value]|] eqn:E.
  - destruct (Z.eqb key df_hash) eqn:Ek.
    + apply Z.eqb_eq in Ek. subst key. simpl. exact E.
    + destruct (compute_similarity_body tfidf_cosine st). reflexivity.
  - destruct (compute_similarity_body tfidf_cosine st). reflexivity.
Qed.

Lemma compute_similarity_hit (other : list string -> Matrix + string)
      (df_hash : Z) (value : option Matrix) (st : State) :
  cache st = Some (df_hash, value) ->
  compute_similarity other df_hash st = (value, st, []).
Proof.
  intros E. unfold compute_similarity. now rewrite E, Z.eqb_refl.
Qed.

End LibrariesFacts.

(** X7.  [compute_similarity] is answered from the cache when its argument
    is the cached one: after a call with [df_hash], a second call with the
    same [df_hash] returns the first value again, whatever [movies_df] holds
    by then and whatever scikit-learn would compute; it changes nothing and
    logs nothing.  The first value is kept also when it is [None]. *)
Theorem compute_similarity_cached
        (tfidf_cosine other : list string -> Matrix + string)
        (df_hash : Z) (st st' later : State)
        (value : option Matrix) (log : list AppLog) :
  compute_similarity tfidf_cosine df_hash st = (value, st', log) ->
  cache later = cache st' ->
  compute_similarity other df_hash later = (value, later, []).
Proof.
  intros H Hc. apply compute_similarity_hit.
  pose proof (compute_similarity_caches tfidf_cosine df_hash st) as E.
  rewrite H in E. simpl in E. now rewrite Hc.
Qed.

Lemma compute_similarity_cached_witness :
  compute_similarity (fun _ => inl [[1%Q]]) 7 fresh
  = (None, mkState None None (Some (7%Z, None)), []) /\
  compute_similarity (fun _ => inl [[1%Q]]) 7
                     (mkState (Some Samples.single) None (Some (7%Z, None)))
  = (None, mkState (Some Samples.single) None (Some (7%Z, None)), []).
Proof.
  split; [reflexivity|].
  apply (compute_similarity_cached
           (fun _ => inl [[1%Q]]) (fun _ => inl [[1%Q]]) 7 fresh
           (mkState None None (Some (7%Z, None)))
           (mkState (Some Samples.single) None (Some (7%Z, None)))
           None []); reflexivity.
Defined.

(** X8.  Started with an empty cache, [initialize_app] returns [True]
    exactly when [load_data] returns a frame and scikit-learn returns a
    matrix for the overviews of that frame, taken in the frame's order; the
    globals then hold that frame and that matrix. *)
Theorem initialize_app_succeeds_iff
        (tfidf_cosine : list string -> Matrix + string)
        (df_hash : Z) (disk : Disk) (st : State) :
  cache st = None ->
  (fst (fst (initialize_app tfidf_cosine df_hash disk st)) = true <->
   exists df matrix,
     fst (load_data disk) = Some df /\
     tfidf_cosine (map overview df) = inl matrix /\
     snd (fst (initialize_app tfidf_cosine df_hash disk st))
     = mkState (Some df) (Some matrix) (Some (df_hash, Some matrix))).
Proof.
  intros Hc. unfold initialize_app.
  destruct (load_data disk) as [[df|] log1]; simpl.
  - unfold compute_similarity, compute_similarity_body. simpl. rewrite Hc.
    destruct (tfidf_cosine (map overview df)) as [matrix|str_e] eqn:E; simpl.
    + split; [|reflexivity]. intros _. exists df, matrix. now rewrite E.
    + split; [discriminate|]. intros (df' & matrix & H & H' & _).
      inversion H; subst df'. congruence.
  - split; [discriminate|]. intros (df' & matrix & H & _). discriminate.
Qed.

Lemma initialize_app_succeeds_iff_witness :
  fst (fst (initialize_app
              (fun overviews => inl (map (fun _ => map (fun _ => 1%Q) overviews) overviews))
              7%Z
              (Readable (mkCsvFrame ["Title"; "Overview"; "Poster_Url"]
                           [mkCsvRow (Some "A") (Some "x") None;
                            mkCsvRow (Some "B") None None;
                            mkCsvRow (Some "C") (Some "z") None]))
              fresh)) = true.
Proof.
  apply (proj2 (initialize_app_succeeds_iff
                  (fun overviews => inl (map (fun _ => map (fun _ => 1%Q) overviews) overviews))
                  7%Z
                  (Readable (mkCsvFrame ["Title"; "Overview"; "Poster_Url"]
                               [mkCsvRow (Some "A") (Some "x") None;
                                mkCsvRow (Some "B") None None;
                                mkCsvRow (Some "C") (Some "z") None]))
                  fresh eq_refl)).
  exists [mkMovie "A" "x" None; mkMovie "C" "z" None], [[1; 1]; [1; 1]]%Q.
  repeat split.
Defined.

Lemma initialize_app_movies_df
      (tfidf_cosine : list string -> Matrix + string)
      (df_hash : Z) (disk : Disk) (st : State) :
  movies_df (snd (fst (initialize_app tfidf_cosine df_hash disk st)))
  = fst (load_data disk).
Proof.
  unfold initialize_app. destruct (load_data disk) as [[df|] log1]; simpl; [|reflexivity].
  unfold compute_similarity. simpl.
  destruct (cache st) as [[key value]|];
    [destruct (Z.eqb key df_hash)|];
    try destruct (compute_similarity_body tfidf_cosine
                    (mkState (Some df) (similarity_matrix st) _)) as [[m|] l];
    try destruct value; reflexivity.
Qed.

(** X9.  What [initialize_app] leaves behind when it returns [False].  If
    [load_data] failed, [movies_df] is [None] and [similarity_matrix] keeps
    the value it had before the call, also a matrix of an earlier run.  If
    [load_data] returned a frame, [movies_df] holds that frame and
    [similarity_matrix] is [None]: the frame stays loaded without a
    matrix. *)
Theorem initialize_app_failure_state
        (tfidf_cosine : list string -> Matrix + string)
        (df_hash : Z) (disk : Disk) (st st' : State) (log : list AppLog) :
  initialize_app tfidf_cosine df_hash disk st = (false, st', log) ->
  (fst (load_data disk) = None /\
   movies_df st' = None /\
   similarity_matrix st' = similarity_matrix st) \/
  (exists df,
      fst (load_data disk) = Some df /\
      movies_df st' = Some df /\
      similarity_matrix st' = None).
Proof.
  intros H.
  pose proof (initialize_app_movies_df tfidf_cosine df_hash disk st) as Hdf.
  rewrite H in Hdf. simpl in Hdf.
  revert H. unfold initialize_app.
  destruct (load_data disk) as [[df|] log1]; simpl in *.
  - destruct (compute_similarity tfidf_cosine df_hash
                (mkState (Some df) (similarity_matrix st) (cache st)))
      as [[[matrix|] st2] log2]; intros H; inversion H; subst.
    right. exists df. repeat split. exact Hdf.
  - intros H; inversion H; subst. left. repeat split.
Qed.

Lemma initialize_app_failure_state_witness :
  (fst (load_data No_file) = None /\
   movies_df (mkState None (Some [[1%Q]]) None) = None /\
   similarity_matrix (mkState None (Some [[1%Q]]) None)
   = similarity_matrix (mkState (Some Samples.single) (Some [[1%Q]]) None)) \/
  (exists df,
      fst (load_data No_file) = Some df /\
      movies_df (mkState None (Some [[1%Q]]) None) = Some df /\
      similarity_matrix (mkState None (Some [[1%Q]]) None) = None).
Proof.
  apply (initialize_app_failure_state
           (fun _ => inl [[1%Q]]) 7%Z No_file
           (mkState (Some Samples.single) (Some [[1%Q]]) None)
           (mkState None (Some [[1%Q]]) None)
           [Info_initializing; Error_dataset_not_found; Error_failed_to_initialize]).
  reflexivity.
Defined.

(** ** Facts about strip, lower and sorted *)

Section StripFacts.

Import Web.

Lemma lstrip_length (s : string) : String.length (lstrip s) <= String.length s.
Proof.
  induction s as [|c s IH]; simpl; [lia|].
  destruct (isspace c); simpl; lia.
Qed.

Lemma lstrip_fixed_iff (s : string) :
  lstrip s = s <-> match s with
                   | EmptyString => True
                   | String c _ => isspace c = false
                   end.
Proof.
  destruct s as [|c s]; simpl; [tauto|].
  destruct (isspace c) eqn:E; [|tauto].
  split; [|discriminate]. intros H.
  pose proof (lstrip_length s) as Hl. rewrite H in Hl. simpl in Hl. lia.
Qed.

Lemma lstrip_lstrip (s : string) : lstrip (lstrip s) = lstrip s.
Proof.
  induction s as [|c s IH]; simpl; [reflexivity|].
  destruct (isspace c) eqn:E; [exact IH|]. simpl. now rewrite E.
Qed.

Lemma rstrip_length (s : string) : String.length (rstrip s) <= String.length s.
Proof.
  induction s as [|c s IH]; simpl; [lia|].
  destruct (rstrip s); [destruct (isspace c)|]; simpl in *; lia.
Qed.

Lemma rstrip_rstrip (s : string) : rstrip (rstrip s) = rstrip s.
Proof.
  induction s as [|c s IH]; simpl; [reflexivity|].
  destruct (rstrip s) as [|d r] eqn:E.
  - destruct (isspace c) eqn:Ec; simpl; [reflexivity | now rewrite Ec].
  - change (rstrip (String c (String d r)) = String c (String d r)).
    simpl in IH. simpl. destruct (rstrip r) as [|d' r'] eqn:Er.
    + destruct (isspace d) eqn:Ed; [discriminate|]. inversion IH; subst. reflexivity.
    + inversion IH; subst. reflexivity.
Qed.

Lemma rstrip_head (s : string) :
  match rstrip s, s with
  | String c _, String d _ => c = d
  | String _ _, EmptyString => False
  | EmptyString, _ => True
  end.
Proof.
  destruct s as [|d s]; simpl; [exact I|].
  destruct (rstrip s); [destruct (isspace d)|]; simpl; auto.
Qed.

Lemma lstrip_rstrip_lstrip (s : string) :
  lstrip (rstrip (lstrip s)) = rstrip (lstrip s).
Proof.
  pose proof (lstrip_lstrip s) as H. apply lstrip_fixed_iff in H.
  apply lstrip_fixed_iff.
  pose proof (rstrip_head (lstrip s)) as Hh.
  destruct (rstrip (lstrip s)) as [|c r]; [exact I|].
  destruct (lstrip s) as [|d t]; [contradiction|]. now subst.
Qed.

Lemma strip_strip (s : string) : strip (strip s) = strip s.
Proof.
  unfold strip. now rewrite lstrip_rstrip_lstrip, rstrip_rstrip.
Qed.

Lemma lstrip_same_length (s : string) :
  String.length (lstrip s) = String.length s -> lstrip s = s.
Proof.
  destruct s as [|c s]; simpl; [reflexivity|].
  destruct (isspace c); [|reflexivity].
  intros H. pose proof (lstrip_length s). lia.
Qed.

Lemma rstrip_same_length (s : string) :
  String.length (rstrip s) = String.length s -> rstrip s = s.
Proof.
  induction s as [|c s IH]; simpl; [reflexivity|].
  pose proof (rstrip_length s) as Hl.
  destruct (rstrip s) as [|d r] eqn:E.
  - destruct (isspace c); simpl; [discriminate|].
    intros H. destruct s; [reflexivity | simpl in H; lia].
  - simpl. intros H. f_equal. apply IH. simpl in *. lia.
Qed.

Lemma strip_same_length (s : string) :
  String.length (strip s) = String.length s -> strip s = s.
Proof.
  unfold strip. intros H.
  pose proof (lstrip_length s). pose proof (rstrip_length (lstrip s)).
  assert (E : lstrip s = s) by (apply lstrip_same_length; lia).
  rewrite E in *. now apply rstrip_same_length.
Qed.

Lemma isspace_lower_char (c : ascii) : isspace (lower_char c) = isspace c.
Proof.
  destruct c as [[] [] [] [] [] [] [] []]; reflexivity.
Qed.

Lemma lower_length (s : string) : String.length (lower s) = String.length s.
Proof. induction s as [|c s IH]; simpl; auto. Qed.

Lemma lstrip_lower (s : string) : lstrip (lower s) = lower (lstrip s).
Proof.
  induction s as [|c s IH]; simpl; [reflexivity|].
  rewrite isspace_lower_char. destruct (isspace c); [exact IH | reflexivity].
Qed.

Lemma rstrip_lower (s : string) : rstrip (lower s) = lower (rstrip s).
Proof.
  induction s as [|c s IH]; simpl; [reflexivity|].
  rewrite IH, isspace_lower_char.
  destruct (rstrip s); simpl; [destruct (isspace c)|]; reflexivity.
Qed.

Lemma strip_lower (s : string) : strip (lower s) = lower (strip s).
Proof. unfold strip. now rewrite lstrip_lower, rstrip_lower. Qed.

Lemma insert_ascending_Sorted (x : string) (l : list string) :
  Sorted (fun a b => String.leb a b = true) l ->
  Sorted (fun a b => String.leb a b = true) (insert_ascending x l).
Proof.
  induction 1 as [|y ys Hs IH Hy]; simpl; [repeat constructor|].
  destruct (String.leb x y) eqn:E.
  - constructor; [now constructor | now constructor].
  - assert (Hyx : String.leb y x = true)
      by (destruct (String.leb_total x y); congruence).
    constructor; [exact IH|].
    destruct ys as [|z zs]; simpl; [now constructor|].
    inversion Hy; subst. destruct (String.leb x z); now constructor.
Qed.

Lemma sorted_ascending_Sorted (l : list string) :
  Sorted (fun a b => String.leb a b = true) (sorted_ascending l).
Proof.
  induction l as [|x xs IH]; simpl; [constructor | now apply insert_ascending_Sorted].
Qed.

Lemma sorted_ascending_Permutation (l : list string) :
  Permutation (sorted_ascending l) l.
Proof.
  induction l as [|x xs IH]; simpl; [constructor|].
  transitivity (x :: sorted_ascending xs); [|now constructor].
  generalize (sorted_ascending xs) as s. clear.
  induction s as [|z zs IH]; simpl; [reflexivity|].
  destruct (String.leb x z); [reflexivity|].
  rewrite IH. apply perm_swap.
Qed.

End StripFacts.

(** ** Properties of the routes *)

Section RoutesFacts.

Import Web Routes.

Lemma insert_ascending_not_nil (x : string) (l : list string) :
  insert_ascending x l <> [].
Proof. destruct l as [|y ys]; simpl; [|destruct (String.leb x y)]; discriminate. Qed.

Lemma index_cases (st : State) :
  match movies_df st with
  | None =>
      index st = Error_block
        "Failed to load movie data. Please check if dataset.csv exists and is properly formatted."
  | Some [] => index st = Error_block "No valid movies found in the dataset."
  | Some (m :: df) => index st = Form_block (sorted_ascending (map title (m :: df)))
  end.
Proof.
  unfold index. destruct (movies_df st) as [[|m df]|]; try reflexivity.
  simpl. pose proof (insert_ascending_not_nil (title m) (sorted_ascending (map title df))) as H.
  destruct (insert_ascending (title m) (sorted_ascending (map title df)));
    [contradiction | reflexivity].
Qed.

Lemma recommend_at_most_five (movie_title : string) (df : DataFrame) (sim : Matrix) :
  exists recs,
    fst (recommend movie_title df sim) = Returned recs /\ List.length recs <= 5.
Proof.
  destruct (recommend_shaped movie_title df sim) as (recs & ranked & E & HF & Hall & _).
  exists recs. split; [exact E|].
  destruct recs as [|r recs]; [simpl; lia|].
  rewrite <- (Forall2_same_length _ _ _ HF), Hall by discriminate.
  apply ranking_length.
Qed.

Lemma lookup_last_found (key : string) (members : list (string * json)) (v : json) :
  lookup_last key members = Some v ->
  existsb (fun kv => String.eqb (fst kv) key) members = true /\ members <> [].
Proof.
  induction members as [|[k w] rest IH]; simpl; [discriminate|].
  intros H. split; [|discriminate].
  destruct (lookup_last key rest) as [v'|].
  - rewrite (proj1 (IH H)). apply orb_true_r.
  - destruct (String.eqb k key); [reflexivity | discriminate].
Qed.

Lemma lookup_last_exists (key : string) (members : list (string * json)) :
  existsb (fun kv => String.eqb (fst kv) key) members = true ->
  exists v, lookup_last key members = Some v.
Proof.
  induction members as [|[k w] rest IH]; simpl; [discriminate|].
  intros H. destruct (lookup_last key rest) as [v'|]; [now exists v'|].
  destruct (String.eqb k key); [now exists w|].
  simpl in H. destruct (IH H) as [v Hv]. discriminate.
Qed.

Lemma endpoint_on_name (body : Body) (st : State) (name : string)
      (df : DataFrame) (sim : Matrix) :
  names_movie body name ->
  strip name <> EmptyString ->
  movies_df st = Some df ->
  similarity_matrix st = Some sim ->
  get_recommendations body st = answer (strip name) (recommend (strip name) df sim).
Proof.
  intros (members & -> & Hl) Hne Hdf Hsim.
  destruct (lookup_last_found _ _ _ Hl) as [Hex Hmem].
  unfold get_recommendations, get_recommendations_try, answer.
  destruct members as [|kv members]; [contradiction|].
  cbn [truthy negb contains and_then subscript].
  rewrite Hex, Hl. cbn [negb and_then strip_method].
  destruct (String.eqb (strip name) "") eqn:E;
    [apply String.eqb_eq in E; contradiction|].
  rewrite Hdf, Hsim.
  destruct (recommend (strip name) df sim) as [[[|r recs]|e] log]; reflexivity.
Qed.

Lemma endpoint_reaches_recommend (body : Body) (st : State) :
  (exists name df sim,
      names_movie body name /\ strip name <> EmptyString /\
      movies_df st = Some df /\ similarity_matrix st = Some sim) \/
  (exists msg, payload (fst (get_recommendations body st)) = Error_message msg /\
               (status (fst (get_recommendations body st)) = 400 \/
                status (fst (get_recommendations body st)) = 500)).
Proof.
  destruct body as [data|e]; [|right; eexists; split; [reflexivity | now right]].
  unfold get_recommendations, get_recommendations_try.
  destruct data as [|b|nz|s|items|members]; cbn [truthy negb contains and_then].
  - right; eexists; split; [reflexivity | now left].
  - right; destruct b; eexists; (split; [reflexivity|]); [now right | now left].
  - right; destruct nz; eexists; (split; [reflexivity|]); [now right | now left].
  - right. destruct (String.eqb s ""); cbn [negb];
      [eexists; split; [reflexivity | now left]|].
    destruct (String.index 0 "movie" s); cbn [negb subscript and_then];
      eexists; (split; [reflexivity|]); [now right | now left].
  - right. destruct items as [|v items]; [eexists; split; [reflexivity | now left]|].
    destruct (existsb _ (v :: items)); cbn [negb subscript and_then];
      eexists; (split; [reflexivity|]); [now right | now left].
  - destruct members as [|kv members];
      [right; eexists; split; [reflexivity | now left]|].
    destruct (existsb (fun kv0 => String.eqb (fst kv0) "movie") (kv :: members)) eqn:Ex;
      cbn [negb]; [|right; eexists; split; [reflexivity | now left]].
    destruct (lookup_last_exists _ _ Ex) as [v Hv].
    cbn [subscript and_then]. rewrite Hv. cbn [and_then].
    destruct v as [|b|nz|name|items|ms]; cbn [strip_method];
      try (right; eexists; split; [reflexivity | now right]).
    destruct (String.eqb (strip name) "") eqn:E;
      [right; eexists; split; [reflexivity | now left]|].
    apply String.eqb_neq in E.
    destruct (movies_df st) as [df|] eqn:Hdf;
      [|right; eexists; split; [reflexivity | now right]].
    destruct (similarity_matrix st) as [sim|] eqn:Hsim;
      [|right; eexists; split; [reflexivity | now right]].
    left. exists name, df, sim. repeat split; auto.
    exists (kv :: members). now split.
Qed.

(** X10.  Every answer of [/recommend] has status 200, 400, 404 or 500.  A
    200 answer carries between one and five recommendations; every other
    answer carries an error message and no recommendation. *)
Theorem get_recommendations_answers (body : Body) (st : State) :
  (status (fst (get_recommendations body st)) = 200 /\
   exists recs,
     payload (fst (get_recommendations body st)) = Recommendations recs /\
     1 <= List.length recs <= 5) \/
  ((status (fst (get_recommendations body st)) = 400 \/
    status (fst (get_recommendations body st)) = 404 \/
    status (fst (get_recommendations body st)) = 500) /\
   exists msg, payload (fst (get_recommendations body st)) = Error_message msg).
Proof.
  destruct (endpoint_reaches_recommend body st)
    as [(name & df & sim & Hb & Hne & Hdf & Hsim) | (msg & Hp & Hs)].
  - rewrite (endpoint_on_name body st name df sim Hb Hne Hdf Hsim).
    destruct (recommend_at_most_five (strip name) df sim) as (recs & E & Hlen).
    unfold answer. rewrite E.
    destruct recs as [|r recs]; simpl.
    + right. split; [right; now left | eexists; reflexivity].
    + left. split; [reflexivity|]. eexists. split; [reflexivity|]. simpl in *. lia.
  - right. split; [tauto | now exists msg].
Qed.

(** X11.  Only a request whose body is a dict with a string under "movie"
    that is not blank, sent while both globals are set, is answered 200 or
    404; the answer is then decided by the result of [recommend] on the
    stripped name alone: 404 when it is empty, 200 with that result when it
    is not. *)
Theorem get_recommendations_200_404 (body : Body) (st : State) :
  status (fst (get_recommendations body st)) = 200 \/
  status (fst (get_recommendations body st)) = 404 ->
  exists name df sim recs,
    names_movie body name /\ strip name <> EmptyString /\
    movies_df st = Some df /\ similarity_matrix st = Some sim /\
    fst (recommend (strip name) df sim) = Returned recs /\
    (recs = [] -> status (fst (get_recommendations body st)) = 404) /\
    (recs <> [] ->
     fst (get_recommendations body st) = mkResponse (Recommendations recs) 200).
Proof.
  intros Hst.
  destruct (endpoint_reaches_recommend body st)
    as [(name & df & sim & Hb & Hne & Hdf & Hsim) | (msg & Hp & Hs)].
  - exists name, df, sim.
    destruct (recommend_at_most_five (strip name) df sim) as (recs & E & _).
    exists recs. repeat split; auto;
      rewrite (endpoint_on_name body st name df sim Hb Hne Hdf Hsim);
      unfold answer; rewrite E.
    + now intros ->.
    + destruct recs; [congruence | reflexivity].
  - destruct Hs as [Hs | Hs]; rewrite Hs in Hst; destruct Hst; discriminate.
Qed.

Lemma get_recommendations_200_404_witness :
  exists name df sim recs,
    names_movie (Parsed (JObj [("movie", JStr "  a ")])) name /\
    strip name <> EmptyString /\
    movies_df (mkState (Some Samples.abc) (Some Samples.abc_matrix) None) = Some df /\
    similarity_matrix (mkState (Some Samples.abc) (Some Samples.abc_matrix) None)
    = Some sim /\
    fst (recommend (strip name) df sim) = Returned recs /\
    (recs = [] ->
     status (fst (get_recommendations
                    (Parsed (JObj [("movie", JStr "  a ")]))
                    (mkState (Some Samples.abc) (Some Samples.abc_matrix) None))) = 404) /\
    (recs <> [] ->
     fst (get_recommendations
            (Parsed (JObj [("movie", JStr "  a ")]))
            (mkState (Some Samples.abc) (Some Samples.abc_matrix) None))
     = mkResponse (Recommendations recs) 200).
Proof.
  apply (get_recommendations_200_404
           (Parsed (JObj [("movie", JStr "  a ")]))
           (mkState (Some Samples.abc) (Some Samples.abc_matrix) None)).
  left. vm_compute. reflexivity.
Defined.

(** X12.  A name that matches no record and an exception raised inside
    [recommend] get the same answer: 404 with the message that quotes the
    stripped name.  The client cannot tell an unknown title from an internal
    failure, and no such failure is answered 500. *)
Theorem get_recommendations_404 (body : Body) (st : State) (name : string)
        (df : DataFrame) (sim : Matrix) :
  names_movie body name ->
  strip name <> EmptyString ->
  movies_df st = Some df ->
  similarity_matrix st = Some sim ->
  (forall m, In m df -> ~ matches (strip name) m) \/
  (exists e, fst (recommend_try (strip name) df sim) = Raised e) ->
  fst (get_recommendations body st)
  = mkResponse
      (Error_message
         ("No recommendations found for " ++ dquote ++ strip name ++ dquote)%string)
      404.
Proof.
  intros Hb Hne Hdf Hsim Hwhy.
  rewrite (endpoint_on_name body st name df sim Hb Hne Hdf Hsim).
  assert (E : fst (recommend (strip name) df sim) = Returned []).
  { destruct Hwhy as [Hno | (e & He)].
    - apply no_match_iff in Hno. unfold recommend, recommend_try. now rewrite Hno.
    - unfold recommend.
      destruct (recommend_try (strip name) df sim) as [[recs|e'] log];
        [discriminate | reflexivity]. }
  unfold answer. now rewrite E.
Qed.

Lemma get_recommendations_404_witness :
  fst (get_recommendations
         (Parsed (JObj [("movie", JStr " Beta ")]))
         (mkState (Some Samples.twins) (Some Samples.short_matrix) None))
  = mkResponse
      (Error_message
         ("No recommendations found for " ++ dquote ++ "Beta" ++ dquote)%string)
      404.
Proof.
  apply (get_recommendations_404
           (Parsed (JObj [("movie", JStr " Beta ")]))
           (mkState (Some Samples.twins) (Some Samples.short_matrix) None)
           " Beta " Samples.twins Samples.short_matrix).
  - exists [("movie", JStr " Beta ")]. split; reflexivity.
  - vm_compute. discriminate.
  - reflexivity.
  - reflexivity.
  - right. exists IndexError. vm_compute. reflexivity.
Defined.

(** X13.  The route strips the name before the lookup and the stored titles
    are compared as they are, so a record can only be matched when its
    stored title neither starts nor ends with whitespace: a record stored
    with such a title is never the one a request finds. *)
Theorem stripped_name_matches_stripped_titles
        (v : json) (movie_name : string) (df : DataFrame) (i : nat) (m : Movie) :
  strip_method v = Done movie_name ->
  In (i, m) (movie_matches movie_name df) ->
  strip (title m) = title m.
Proof.
  intros Hv Hin. destruct v as [| | |name| |]; try discriminate.
  inversion Hv; subst movie_name.
  apply movie_matches_In in Hin. destruct Hin as [_ Hm]. unfold matches in Hm.
  apply strip_same_length.
  rewrite <- (lower_length (strip (title m))), <- strip_lower, Hm.
  rewrite strip_lower, strip_strip, <- Hm. apply lower_length.
Qed.

Lemma stripped_name_matches_stripped_titles_witness :
  strip (title Samples.alpha) = title Samples.alpha.
Proof.
  apply (stripped_name_matches_stripped_titles
           (JStr "  ALPHA ") "ALPHA" Samples.twins 0 Samples.alpha).
  - reflexivity.
  - vm_compute. now left.
Defined.

(** X14.  The form is shown only for a loaded, non-empty frame, and its
    options are all the stored titles, each as often as it is stored:
    records with the same title are not merged. *)
Theorem index_form (st : State) (movies : list string) :
  index st = Form_block movies ->
  exists df,
    movies_df st = Some df /\ df <> [] /\
    Permutation movies (map title df).
Proof.
  intros H. pose proof (index_cases st) as Hc.
  destruct (movies_df st) as [[|m df]|]; rewrite H in Hc; try discriminate.
  assert (E : movies = sorted_ascending (map title (m :: df))) by congruence.
  rewrite E. clear E Hc H.
  exists (m :: df). repeat split; try discriminate.
  apply sorted_ascending_Permutation.
Qed.

Lemma index_form_witness :
  exists df,
    movies_df (mkState (Some Samples.twins) None None) = Some df /\ df <> [] /\
    Permutation ["Alpha"; "Beta"] (map title df).
Proof.
  apply (index_form (mkState (Some Samples.twins) None None) ["Alpha"; "Beta"]).
  reflexivity.
Defined.

(** X15.  A request that names a movie matched by some record is answered
    200 with min(5, N - 1) recommendations and logs nothing, provided the
    corpus has at least two records and the matrix is square on it. *)
Theorem matched_name_is_answered (body : Body) (st : State) (name : string)
        (df : DataFrame) (sim : Matrix) :
  names_movie body name ->
  strip name <> EmptyString ->
  movies_df st = Some df ->
  similarity_matrix st = Some sim ->
  square_on df sim ->
  2 <= List.length df ->
  (exists m, In m df /\ matches (strip name) m) ->
  exists recs,
    get_recommendations body st = (mkResponse (Recommendations recs) 200, []) /\
    List.length recs = Nat.min 5 (List.length df - 1).
Proof.
  intros Hb Hne Hdf Hsim Hsq Hlen Hm.
  destruct (recommend_on_square (strip name) df sim Hsq Hm) as (recs & E & Hrecs).
  exists recs. split; [|exact Hrecs].
  rewrite (endpoint_on_name body st name df sim Hb Hne Hdf Hsim).
  unfold answer. rewrite E. simpl.
  destruct recs as [|r recs]; [cbn [List.length] in Hrecs; lia | reflexivity].
Qed.

Lemma matched_name_is_answered_witness :
  exists recs,
    get_recommendations
      (Parsed (JObj [("movie", JStr " m2 ")]))
      (mkState (Some Samples.four) (Some Samples.four_matrix) None)
    = (mkResponse (Recommendations recs) 200, []) /\
    List.length recs = 3.
Proof.
  apply (matched_name_is_answered
           (Parsed (JObj [("movie", JStr " m2 ")]))
           (mkState (Some Samples.four) (Some Samples.four_matrix) None)
           " m2 " Samples.four Samples.four_matrix);
    try reflexivity.
  - exists [("movie", JStr " m2 ")]. split; reflexivity.
  - vm_compute. discriminate.
  - split; [reflexivity | repeat constructor].
  - simpl. lia.
  - exists (mkMovie "M2" Samples.space None). split; [simpl; tauto | reflexivity].
Defined.

End RoutesFacts.

(** X16.  After [initialize_app], whatever it returned, the index page is
    the form over the titles of the loaded frame when [load_data] returned a
    frame, and the "Failed to load movie data" error when it did not.  The
    "No valid movies found" error and the template's "No Movies Available"
    block are never shown. *)
Theorem index_after_initialize_app
        (tfidf_cosine : list string -> Matrix + string)
        (df_hash : Z) (disk : Disk) (st : State) :
  match fst (load_data disk) with
  | Some df =>
      df <> [] /\
      Routes.index (snd (fst (initialize_app tfidf_cosine df_hash disk st)))
      = Routes.Form_block (Web.sorted_ascending (map title df))
  | None =>
      Routes.index (snd (fst (initialize_app tfidf_cosine df_hash disk st)))
      = Routes.Error_block
          "Failed to load movie data. Please check if dataset.csv exists and is properly formatted."
  end.
Proof.
  pose proof (load_data_cases disk) as Hl.
  pose proof (index_cases (snd (fst (initialize_app tfidf_cosine df_hash disk st))))
    as Hi.
  rewrite (initialize_app_movies_df tfidf_cosine df_hash disk st) in Hi.
  destruct (fst (load_data disk)) as [df|]; [|exact Hi].
  destruct Hl as (csv & _ & _ & _ & Hne & _).
  split; [exact Hne|].
  destruct df as [|m df]; [contradiction | exact Hi].
Qed.

Section RoutesComposition.

Import Web Routes.

Lemma recommend_lower (q1 q2 : string) (df : DataFrame) (sim : Matrix) :
  lower q1 = lower q2 ->
  fst (recommend q1 df sim) = fst (recommend q2 df sim).
Proof.
  intros H. unfold recommend, recommend_try.
  rewrite (movie_matches_lower q1 q2 df H).
  destruct (movie_matches q2 df) as [|[index m] rest]; reflexivity.
Qed.

(** X17.  Two requests whose names are equal once stripped and lowered get
    the same status, and the same recommendations when the status is 200:
    letter case and whitespace around the name do not change the answer. *)
Theorem get_recommendations_ignores_case_and_margins
        (body1 body2 : Body) (name1 name2 : string) (st : State) :
  names_movie body1 name1 ->
  names_movie body2 name2 ->
  strip name1 <> EmptyString ->
  lower (strip name1) = lower (strip name2) ->
  status (fst (get_recommendations body1 st))
  = status (fst (get_recommendations body2 st)) /\
  (status (fst (get_recommendations body1 st)) = 200 ->
   fst (get_recommendations body1 st) = fst (get_recommendations body2 st)).
Proof.
  intros H1 H2 Hne Hlow.
  assert (Hne2 : strip name2 <> EmptyString).
  { intros E. rewrite E in Hlow. apply Hne.
    destruct (strip name1); [reflexivity | discriminate]. }
  destruct (endpoint_reaches_recommend body1 st)
    as [(n & df & sim & Hb & _ & Hdf & Hsim) | (msg & Hp & Hs)].
  - rewrite (endpoint_on_name body1 st name1 df sim H1 Hne Hdf Hsim).
    rewrite (endpoint_on_name body2 st name2 df sim H2 Hne2 Hdf Hsim).
    unfold answer. rewrite (recommend_lower _ _ df sim Hlow).
    destruct (recommend_at_most_five (strip name2) df sim) as (recs & E & _).
    rewrite E. destruct recs as [|r recs]; simpl; split; auto; discriminate.
  - destruct H1 as (ms1 & -> & Hl1). destruct H2 as (ms2 & -> & Hl2).
    destruct (lookup_last_found _ _ _ Hl1) as [Hex1 Hm1].
    destruct (lookup_last_found _ _ _ Hl2) as [Hex2 Hm2].
    revert Hp Hs.
    unfold get_recommendations, get_recommendations_try.
    destruct ms1 as [|kv1 ms1]; [contradiction|].
    destruct ms2 as [|kv2 ms2]; [contradiction|].
    cbn [truthy negb contains and_then subscript].
    rewrite Hex1, Hex2, Hl1, Hl2. cbn [negb and_then strip_method].
    destruct (String.eqb (strip name1) "") eqn:E1;
      [apply String.eqb_eq in E1; contradiction|].
    destruct (String.eqb (strip name2) "") eqn:E2;
      [apply String.eqb_eq in E2; contradiction|].
    destruct (movies_df st) as [df|]; [|simpl; split; [reflexivity | discriminate]].
    destruct (similarity_matrix st) as [sim|]; [|simpl; split; [reflexivity | discriminate]].
    destruct (recommend_at_most_five (strip name1) df sim) as (recs1 & Er1 & _).
    destruct (recommend (strip name1) df sim) as [o1 l1]. simpl in Er1. subst o1.
    destruct recs1 as [|r1 recs1]; simpl; intros Hp [Hs | Hs]; discriminate.
Qed.

Lemma get_recommendations_ignores_case_and_margins_witness :
  status (fst (get_recommendations
                 (Parsed (JObj [("movie", JStr "  alpha")]))
                 (mkState (Some Samples.twins) (Some Samples.twins_matrix) None)))
  = status (fst (get_recommendations
                   (Parsed (JObj [("movie", JStr "ALPHA ")]))
                   (mkState (Some Samples.twins) (Some Samples.twins_matrix) None))) /\
  (status (fst (get_recommendations
                  (Parsed (JObj [("movie", JStr "  alpha")]))
                  (mkState (Some Samples.twins) (Some Samples.twins_matrix) None)))
   = 200 ->
   fst (get_recommendations
          (Parsed (JObj [("movie", JStr "  alpha")]))
          (mkState (Some Samples.twins) (Some Samples.twins_matrix) None))
   = fst (get_recommendations
            (Parsed (JObj [("movie", JStr "ALPHA ")]))
            (mkState (Some Samples.twins) (Some Samples.twins_matrix) None))).
Proof.
  apply (get_recommendations_ignores_case_and_margins
           (Parsed (JObj [("movie", JStr "  alpha")]))
           (Parsed (JObj [("movie", JStr "ALPHA ")]))
           "  alpha" "ALPHA "
           (mkState (Some Samples.twins) (Some Samples.twins_matrix) None)).
  - exists [("movie", JStr "  alpha")]. split; reflexivity.
  - exists [("movie", JStr "ALPHA ")]. split; reflexivity.
  - vm_compute. discriminate.
  - reflexivity.
Defined.

(** X18.  With a square matrix, a 200 answer needs a corpus of at least two
    records: on a corpus of one record every request, also one that names
    the stored title, is answered with an error. *)
Theorem get_recommendations_200_needs_two_records
        (body : Body) (st : State) (df : DataFrame) (sim : Matrix) :
  movies_df st = Some df ->
  similarity_matrix st = Some sim ->
  square_on df sim ->
  status (fst (get_recommendations body st)) = 200 ->
  2 <= List.length df.
Proof.
  intros Hdf Hsim Hsq Hst.
  destruct (endpoint_reaches_recommend body st)
    as [(name & df' & sim' & Hb & Hne & Hdf' & Hsim') | (msg & Hp & Hs)];
    [|destruct Hs as [Hs | Hs]; rewrite Hs in Hst; discriminate].
  rewrite Hdf in Hdf'. rewrite Hsim in Hsim'.
  inversion Hdf'; inversion Hsim'; subst df' sim'.
  rewrite (endpoint_on_name body st name df sim Hb Hne Hdf Hsim) in Hst.
  unfold answer in Hst.
  destruct (movie_matches (strip name) df) as [|[index m] rest] eqn:Em.
  - unfold recommend, recommend_try in Hst. rewrite Em in Hst. discriminate.
  - assert (Hm : exists m, In m df /\ matches (strip name) m).
    { apply first_match in Em. destruct Em as (Hn & Hmatch & _).
      exists m. split; [eapply nth_error_In; eassumption | exact Hmatch]. }
    destruct (recommend_on_square (strip name) df sim Hsq Hm) as (recs & E & Hlen).
    rewrite E in Hst. simpl in Hst.
    destruct recs as [|r recs]; [discriminate|].
    cbn [List.length] in Hlen. lia.
Qed.

Lemma get_recommendations_200_needs_two_records_witness :
  2 <= List.length Samples.twins.
Proof.
  apply (get_recommendations_200_needs_two_records
           (Parsed (JObj [("movie", JStr "Alpha")]))
           (mkState (Some Samples.twins) (Some Samples.twins_matrix) None)
           Samples.twins Samples.twins_matrix); try reflexivity.
  split; [reflexivity | repeat constructor].
Defined.

End RoutesComposition.
